(** * personal-health-assistant: the supervisor / health-agent workflow

    A shallow embedding of [src/index.ts] (both revisions of the file agree on
    everything modelled here): the message channel and its reducer, the
    router [routeLogic], the two node functions, [buildWorkflow],
    [runWorkflow], [initializeEnvironmentAndLLM] and [main].

    Effects are explicit.  Every function of the program that logs, reads the
    environment, calls the agent runnable or leaves the process is a
    computation over a [World]; it returns a value, throws, or exits. *)

From Stdlib Require Import ZArith List Lia.
From stdpp Require Import base strings gmap list fin_maps.
From stdpp Require Import pretty.

Local Open Scope string_scope.
Local Open Scope list_scope.
Local Open Scope Z_scope.

(** ** Messages *)

(** The message classes of [@langchain/core/messages] that the program
    imports.  [m instanceof HumanMessage] is a test on the class. *)
Inductive MessageClass : Set :=
| HumanMessage
| AIMessage
| SystemMessage
| ToolMessage.

Record BaseMessage : Set := mkMessage {
  msg_class : MessageClass;
  content : string;
  response_metadata : option string
}.

#[global] Instance MessageClass_eq_dec : EqDecision MessageClass.
Proof. solve_decision. Defined.

#[global] Instance BaseMessage_eq_dec : EqDecision BaseMessage.
Proof. solve_decision. Defined.

(** [interface AgentState { messages: BaseMessage[] }] *)
Record AgentState : Set := mkState { messages : list BaseMessage }.

(** [Partial<AgentState>]: every channel may be absent. *)
Record PartialAgentState : Set := mkPartial {
  upd_messages : option (list BaseMessage)
}.

(** ** JavaScript values the program relies on *)
Module Js.

(** [a[i]] on an array: [undefined] outside [0 .. a.length - 1]. *)
Definition index {A : Type} (a : list A) (i : Z) : option A :=
  if i <? 0 then None else a !! Z.to_nat i.

(** [a.length] *)
Definition length {A : Type} (a : list A) : Z := Z.of_nat (List.length a).

(** [x.concat(y)] for an array argument [y]. *)
Definition concat {A : Type} (x y : list A) : list A := x ++ y.

(** Truthiness of a value that is a string or [undefined]: [undefined] and
    the empty string are falsy. *)
Definition truthy (v : option string) : bool :=
  match v with
  | None => false
  | Some s => negb (String.eqb s "")
  end.

(** [v instanceof HumanMessage], for [v] a message or [undefined]. *)
Definition instanceof_HumanMessage (v : option BaseMessage) : bool :=
  match v with
  | Some m => bool_decide (msg_class m = HumanMessage)
  | None => false
  end.

End Js.

(** The options object handed to [new ChatOpenAI]; each field is a string or
    [undefined], as [process.env] gives them. *)
Record ChatOpenAI : Set := mkLlm {
  llm_apiKey : option string;
  llm_model : option string;
  llm_baseURL : option string;
  llm_temperature : Z
}.

(** ** The world the program runs in *)

Inductive Level : Set := LDebug | LInfo | LWarn | LError.

(** What the logger is handed besides the text. *)
Inductive Payload : Set :=
| NoPayload
| PMessage (m : BaseMessage)
| PMetadata (meta : string)
| PResponse (r : AgentState)
| PError (detail : string).

(** What an outside observer can see of a run, in the order it happens. *)
Inductive Event : Set :=
| Log (lvl : Level) (text : string) (p : Payload)
| LlmCreated (llm : ChatOpenAI)             (* new ChatOpenAI(...) *)
| AgentCreated                              (* createReactAgent(...) *)
| GraphCompiled                             (* workflow.compile() *)
| NodeRun (name : string)                   (* the executor invokes a task unit *)
| Snapshot (s : AgentState).                (* the stream yields a value *)

Inductive Failure : Set :=
| ValidationError (what : string)
| RoutingError (label : string)
| TaskExecutionError (detail : string).

Inductive Outcome (A : Type) : Type :=
| Ok (a : A)
| Throw (e : Failure)
| Exit (code : Z).

Arguments Ok {A} a.
Arguments Throw {A} e.
Arguments Exit {A} code.

(** ** Computations: state, exceptions and process exit *)
Module Eff.

Definition M (W A : Type) : Type := W -> Outcome A * W.

Definition ret {W A : Type} (a : A) : M W A := fun w => (Ok a, w).

Definition bind {W A B : Type} (c : M W A) (k : A -> M W B) : M W B :=
  fun w =>
    match c w with
    | (Ok a, w') => k a w'
    | (Throw e, w') => (Throw e, w')
    | (Exit n, w') => (Exit n, w')
    end.

(** [throw e] *)
Definition throw {W A : Type} (e : Failure) : M W A := fun w => (Throw e, w).

(** [process.exit(code)]: nothing after it runs, and no [catch] sees it. *)
Definition process_exit {W A : Type} (code : Z) : M W A := fun w => (Exit code, w).

(** [try { c } catch (error) { h(error) }] *)
Definition try_catch {W A : Type} (c : M W A) (h : Failure -> M W A) : M W A :=
  fun w =>
    match c w with
    | (Throw e, w') => h e w'
    | r => r
    end.

Definition detail_of (e : Failure) : string :=
  match e with
  | ValidationError s => s
  | RoutingError s => s
  | TaskExecutionError s => s
  end.

End Eff.

Import Eff.

Notation "'let*' x ':=' c 'in' k" := (bind c (fun x => k))
  (at level 10, x name, c at level 100, k at level 200, only parsing).
Notation "c '>>' k" := (bind c (fun _ => k))
  (at level 100, k at level 200, right associativity, only parsing).

(** [END] and [START] of [@langchain/langgraph]. *)
Definition END : string := "__end__".
Definition START : string := "__start__".

(** A channel definition, [{ value: reducer, default: factory }]. *)
Record Channel (V : Type) : Type := mkChannel {
  value : V -> V -> V;
  default : unit -> V
}.

Arguments mkChannel {V} value default.
Arguments value {V} c.
Arguments default {V} c.

(** ** The program *)
Section Program.

(** The state of whatever answers the agent runnable (the model service). *)
Context {Oracle : Type}.

Record World : Type := mkWorld {
  env : gmap string string;          (* process.env *)
  events : list Event;
  oracle : Oracle
}.

(** [dotenv.config({ path })]: what the package does to [process.env]. *)
Variable dotenv_config : string -> gmap string string -> gmap string string.

(** What [invoke] on the runnable that [createReactAgent] builds over an LLM
    answers: a response holding a message list, or a rejection. *)
Variable agent_invoke :
  ChatOpenAI -> AgentState -> Oracle -> (string + AgentState) * Oracle.

Definition emit (e : Event) : M World unit :=
  fun w => (Ok tt, {| env := env w; events := events w ++ [e]; oracle := oracle w |}).

Definition logger (lvl : Level) (text : string) (p : Payload) : M World unit :=
  emit (Log lvl text p).

(** [process.env.NAME] *)
Definition process_env (name : string) : M World (option string) :=
  fun w => (Ok (env w !! name), w).

Definition dotenv (path : string) : M World unit :=
  fun w => (Ok tt, {| env := dotenv_config path (env w); events := events w;
                      oracle := oracle w |}).

Definition Runnable : Type := AgentState -> M World AgentState.

Definition initializeEnvironmentAndLLM : M World ChatOpenAI :=
  dotenv "local.env" >>
  let* endpointId := process_env "ENDPOINT_ID" in
  let* endpointApiKey := process_env "ENDPOINT_API_KEY" in
  let* arkBaseUrl := process_env "ARK_BASE_URL" in
  (if negb (Js.truthy endpointId) || negb (Js.truthy endpointApiKey)
      || negb (Js.truthy arkBaseUrl)
   then
     logger LError "[initializeEnvironmentAndLLM] 缺少必要的环境变量 (ENDPOINT_ID, ENDPOINT_API_KEY, ARK_BASE_URL)。" NoPayload >>
     process_exit 1
   else ret tt) >>
  let llm := {| llm_apiKey := endpointApiKey; llm_model := endpointId;
                llm_baseURL := arkBaseUrl; llm_temperature := 0 |} in
  emit (LlmCreated llm) >>
  logger LInfo "[initializeEnvironmentAndLLM] ChatOpenAI LLM Initialized." NoPayload >>
  ret llm.

(** [healthAgentRunnable.invoke(state)] for the runnable built over [llm]. *)
Definition runnable_of (llm : ChatOpenAI) : Runnable :=
  fun state w =>
    match agent_invoke llm state (oracle w) with
    | (inr response, o) =>
        (Ok response, {| env := env w; events := events w; oracle := o |})
    | (inl detail, o) =>
        (Throw (TaskExecutionError detail),
         {| env := env w; events := events w; oracle := o |})
    end.

Definition createHealthAgentRunnable (llm : ChatOpenAI) : M World Runnable :=
  logger LInfo "[createHealthAgentRunnable] tools.length=0" NoPayload >>
  emit AgentCreated >>
  logger LInfo "[createHealthAgentRunnable] healthAgentRunnable Initialized." NoPayload >>
  ret (runnable_of llm).

Definition callHealthAgentNode (state : AgentState) (healthAgentRunnable : Runnable)
  : M World PartialAgentState :=
  logger LDebug "[HealthAgent] 调用健康助手节点..." NoPayload >>
  let* response := healthAgentRunnable state in
  logger LDebug "[HealthAgent] 收到响应:" (PResponse response) >>
  ret {| upd_messages := Some (messages response) |}.

Definition routeLogic (state : AgentState) : M World string :=
  logger LDebug "[Supervisor] Deciding next step..." NoPayload >>
  let lastMessage :=
    Js.index (messages state) (Js.length (messages state) - 1) in
  if Js.instanceof_HumanMessage lastMessage then
    logger LInfo "[Supervisor] Route to Health Agent。" NoPayload >>
    ret "health_agent"
  else
    logger LInfo "[Supervisor] Route to END。" NoPayload >>
    ret END.

Definition supervisorNode (state : AgentState) : M World PartialAgentState :=
  logger LDebug "[Supervisor] 通过 Supervisor 节点。" NoPayload >>
  ret {| upd_messages := None |}.

(** ** The graph under construction *)

Definition Task : Type := AgentState -> M World PartialAgentState.
Definition Router : Type := AgentState -> M World string.

Inductive EdgeSet : Type :=
| PlainEdge (source target : string)
| ConditionalEdge (source : string) (router : Router) (outcomes : gmap string string).

Definition edge_source (e : EdgeSet) : string :=
  match e with
  | PlainEdge source _ => source
  | ConditionalEdge source _ _ => source
  end.

Definition edge_targets (e : EdgeSet) : list string :=
  match e with
  | PlainEdge _ target => [target]
  | ConditionalEdge _ _ outcomes => (map_to_list outcomes).*2
  end.

Record StateGraph : Type := mkGraph {
  sg_channel : Channel (list BaseMessage);      (* channels.messages *)
  sg_nodes : gmap string Task;
  sg_edges : list EdgeSet;
  sg_entry : option string
}.

(** [new StateGraph({ channels: { messages: ch } })] *)
Definition new_StateGraph (ch : Channel (list BaseMessage)) : StateGraph :=
  {| sg_channel := ch; sg_nodes := ∅; sg_edges := []; sg_entry := None |}.

(** [workflow.addNode(name, task)] *)
Definition addNode (name : string) (task : Task) (g : StateGraph) : StateGraph :=
  {| sg_channel := sg_channel g; sg_nodes := <[name := task]> (sg_nodes g);
     sg_edges := sg_edges g; sg_entry := sg_entry g |}.

(** [workflow.setEntryPoint(name)] *)
Definition setEntryPoint (name : string) (g : StateGraph) : StateGraph :=
  {| sg_channel := sg_channel g; sg_nodes := sg_nodes g;
     sg_edges := sg_edges g; sg_entry := Some name |}.

(** [workflow.addEdge(source, target)]; an edge out of [START] names the
    entry node. *)
Definition addEdge (source target : string) (g : StateGraph) : StateGraph :=
  if String.eqb source START then setEntryPoint target g
  else {| sg_channel := sg_channel g; sg_nodes := sg_nodes g;
          sg_edges := sg_edges g ++ [PlainEdge source target];
          sg_entry := sg_entry g |}.

(** [workflow.addConditionalEdges(source, router, outcomes)] *)
Definition addConditionalEdges (source : string) (router : Router)
    (outcomes : gmap string string) (g : StateGraph) : StateGraph :=
  {| sg_channel := sg_channel g; sg_nodes := sg_nodes g;
     sg_edges := sg_edges g ++ [ConditionalEdge source router outcomes];
     sg_entry := sg_entry g |}.

(** ** The compiled graph and its executor *)

Record CompiledStateGraph : Type := mkCompiled {
  cg_channel : Channel (list BaseMessage);
  cg_nodes : gmap string Task;
  cg_edges : gmap string EdgeSet;               (* the edge set of each source *)
  cg_entry : string
}.

Definition registered (g : StateGraph) (name : string) : bool :=
  match sg_nodes g !! name with
  | Some _ => true
  | None => false
  end.

Definition edge_ok (g : StateGraph) (e : EdgeSet) : bool :=
  registered g (edge_source e)
  && forallb (fun t => String.eqb t END || registered g t) (edge_targets e).

(** Modelled from the spec: [compile] belongs to the graph library, which is
    not part of the repository's sources.  Section 4.4: it fails with a
    ValidationError if an edge references an unregistered node name, if two
    edge sets have the same source node, or if the entry node is not
    registered; otherwise it binds the entry point and gives the compiled
    graph. *)
Definition compile (g : StateGraph) : M World CompiledStateGraph :=
  match sg_entry g with
  | None => throw (ValidationError "the entry node is not registered")
  | Some entry =>
      if negb (registered g entry) then
        throw (ValidationError "the entry node is not registered")
      else if negb (forallb (edge_ok g) (sg_edges g)) then
        throw (ValidationError "an edge references an unregistered node")
      else if negb (bool_decide (NoDup (edge_source <$> sg_edges g))) then
        throw (ValidationError "two edge sets leave the same node")
      else
        emit GraphCompiled >>
        ret {| cg_channel := sg_channel g; cg_nodes := sg_nodes g;
               cg_edges := list_to_map ((fun e => (edge_source e, e)) <$> sg_edges g);
               cg_entry := entry |}
  end.

(** How a run ends, or that it has not ended within the steps allowed. *)
Inductive RunStatus : Type :=
| Halted (final : AgentState)
| StillRunning (current : string) (st : AgentState).

(** Modelled from the spec: merging a task unit's partial update belongs to
    the graph library.  Sections 4.2 and 4.4: each returned delta is merged
    into the current state by its channel's reducer; channels the update
    omits are left untouched for that step. *)
Definition apply_update (ch : Channel (list BaseMessage)) (st : AgentState)
    (u : PartialAgentState) : AgentState :=
  match upd_messages u with
  | Some delta => {| messages := value ch (messages st) delta |}
  | None => st
  end.

(** Modelled from the spec: the initial state of a run (library code).
    Sections 4.1 and 4.4: the supplied state with all channel defaults
    materialized; [default()] is called for a channel no value was supplied
    for. *)
Definition materialize (ch : Channel (list BaseMessage)) (input : PartialAgentState)
  : AgentState :=
  match upd_messages input with
  | Some supplied => {| messages := supplied |}
  | None => {| messages := default ch tt |}
  end.

(** Modelled from the spec: resolving the next node (library code).
    Section 4.3: a plain edge always leads to its target; a conditional edge
    calls the router and looks the label up in the outcome mapping, failing
    with a RoutingError if it is absent.  The spec does not say what follows
    a node with no outgoing edge; the run halts there, and no node of the
    workflow built below is such a node. *)
Definition resolve_next (g : CompiledStateGraph) (current : string) (st : AgentState)
  : M World string :=
  match cg_edges g !! current with
  | Some (PlainEdge _ target) => ret target
  | Some (ConditionalEdge _ router outcomes) =>
      let* label := router st in
      match outcomes !! label with
      | Some next => ret next
      | None => throw (RoutingError label)
      end
  | None => ret END
  end.

(** Modelled from the spec: one turn of the execution loop (library code).
    Section 4.4: invoke the current node's task unit with the current state;
    on return merge the deltas; resolve the next node via the edge table.
    Sections 4.5 and 8: a full-state snapshot is yielded for a node whose
    update named a channel, and the consumer of the stream receives it
    before anything else happens; after the empty update of a pass-through
    node nothing is yielded, which is how the run of the worked example,
    three nodes long, closes after two snapshots. *)
Definition exec_step (g : CompiledStateGraph) (consumer : AgentState -> M World unit)
    (current : string) (st : AgentState) : M World (string * AgentState) :=
  match cg_nodes g !! current with
  | None => throw (ValidationError "the node is not registered")
  | Some task =>
      emit (NodeRun current) >>
      let* update := task st in
      let st' := apply_update (cg_channel g) st update in
      match upd_messages update with
      | Some _ => emit (Snapshot st') >> consumer st'
      | None => ret tt
      end >>
      let* next := resolve_next g current st' in
      ret (next, st')
  end.

(** Modelled from the spec: the execution loop (library code).  Section 4.4:
    repeat the turn; if the next node is the terminal marker, stop; else the
    next node becomes the current node.  [fuel] bounds the number of turns
    the model follows. *)
Fixpoint exec_loop (fuel : nat) (g : CompiledStateGraph)
    (consumer : AgentState -> M World unit) (current : string) (st : AgentState)
  : M World RunStatus :=
  match fuel with
  | O => ret (StillRunning current st)
  | S fuel' =>
      let* r := exec_step g consumer current st in
      if String.eqb (fst r) END then ret (Halted (snd r))
      else exec_loop fuel' g consumer (fst r) (snd r)
  end.

(** Modelled from the spec: [app.stream(input, { streamMode: 'values' })]
    consumed by a [for await] loop whose body is [consumer] (library code).
    Section 4.4: the current node is the entry node and the current state is
    the initial state with the channel defaults materialized.  Section 8:
    the first snapshot of the stream is that initial state. *)
Definition stream (fuel : nat) (g : CompiledStateGraph) (input : PartialAgentState)
    (consumer : AgentState -> M World unit) : M World RunStatus :=
  let st0 := materialize (cg_channel g) input in
  emit (Snapshot st0) >>
  consumer st0 >>
  exec_loop fuel g consumer (cg_entry g) st0.

(** ** Building and running the workflow *)

(** [channels.messages] of [buildWorkflow]. *)
Definition messages_channel : Channel (list BaseMessage) :=
  {| value := fun x y => Js.concat x y; default := fun _ => [] |}.

Definition workflow_graph (healthAgentRunnable : Runnable) : StateGraph :=
  let workflow := new_StateGraph messages_channel in
  let workflow :=
    addNode "health_agent"
      (fun state => callHealthAgentNode state healthAgentRunnable) workflow in
  let workflow := addNode "supervisor" supervisorNode workflow in
  let workflow := addEdge START "supervisor" workflow in
  let workflow :=
    addConditionalEdges "supervisor" routeLogic
      (<[END := END]> (<["health_agent" := "health_agent"]> ∅)) workflow in
  addEdge "health_agent" "supervisor" workflow.

(** The graph as the earlier revision of [buildWorkflow] assembles it: the
    edges first, then [setEntryPoint] instead of an edge out of [START]. *)
Definition workflow_graph_setEntryPoint (healthAgentRunnable : Runnable) : StateGraph :=
  let workflow := new_StateGraph messages_channel in
  let workflow :=
    addNode "health_agent"
      (fun state => callHealthAgentNode state healthAgentRunnable) workflow in
  let workflow := addNode "supervisor" supervisorNode workflow in
  let workflow :=
    addConditionalEdges "supervisor" routeLogic
      (<[END := END]> (<["health_agent" := "health_agent"]> ∅)) workflow in
  let workflow := addEdge "health_agent" "supervisor" workflow in
  setEntryPoint "supervisor" workflow.

Definition buildWorkflow (healthAgentRunnable : Runnable) : M World CompiledStateGraph :=
  logger LInfo "[buildWorkflow] StateGraph Initialized." NoPayload >>
  logger LInfo "[buildWorkflow] health_agent, supervisor added into StateGraph." NoPayload >>
  let* app := compile (workflow_graph healthAgentRunnable) in
  logger LInfo "[buildWorkflow] LangGraph workflow compiled." NoPayload >>
  ret app.

(** The body of the [for await] loop of [runWorkflow]. *)
Definition runWorkflow_body (value : AgentState) : M World unit :=
  let lastMessage :=
    Js.index (messages value) (Js.length (messages value) - 1) in
  match lastMessage with
  | Some m =>
      logger LInfo "[runWorkflow] 节点: ${lastMessage.__type}, content: ${lastMessage.content}" (PMessage m) >>
      match response_metadata m with
      | Some meta => logger LInfo "[runWorkflow] response_metadata:" (PMetadata meta)
      | None => ret tt
      end
  | None => ret tt
  end.

Definition runWorkflow (fuel : nat) (app : CompiledStateGraph) (initialInput : AgentState)
  : M World RunStatus :=
  stream fuel app {| upd_messages := Some (messages initialInput) |} runWorkflow_body.

(** [new HumanMessage({ content })]: the constructor is handed no metadata
    and the message carries the empty object as its [response_metadata]. *)
Definition new_HumanMessage (text : string) : BaseMessage :=
  {| msg_class := HumanMessage; content := text; response_metadata := Some "{}" |}.

Definition initialInput : AgentState :=
  {| messages := [new_HumanMessage "你好啊"] |}.

Definition main (fuel : nat) : M World RunStatus :=
  try_catch
    (let* llm := initializeEnvironmentAndLLM in
     let* healthAgentRunnable := createHealthAgentRunnable llm in
     let* app := buildWorkflow healthAgentRunnable in
     runWorkflow fuel app initialInput)
    (fun error =>
       logger LError "主函数发生未处理错误:" (PError (detail_of error)) >>
       process_exit 1).

End Program.

Arguments World Oracle : clear implicits.
Arguments Runnable Oracle : clear implicits.
Arguments StateGraph Oracle : clear implicits.
Arguments CompiledStateGraph Oracle : clear implicits.

(** ** What a run leaves behind *)
Section Observations.

Context {Oracle : Type}.

(** The world after some more events. *)
Definition add_events (w : World Oracle) (evs : list Event) : World Oracle :=
  {| env := env w; events := events w ++ evs; oracle := oracle w |}.

(** The world after the model service moved to state [o]. *)
Definition with_oracle (w : World Oracle) (o : Oracle) : World Oracle :=
  {| env := env w; events := events w; oracle := o |}.

(** The node names the executor invoked, in order. *)
Definition executed_nodes (evs : list Event) : list string :=
  omap (fun e => match e with NodeRun name => Some name | _ => None end) evs.

(** The values the stream yielded, in order. *)
Definition snapshots (evs : list Event) : list AgentState :=
  omap (fun e => match e with Snapshot s => Some s | _ => None end) evs.

(** The graph activity among the events: compiling, running a node, yielding. *)
Definition is_graph_activity (e : Event) : bool :=
  match e with
  | GraphCompiled | NodeRun _ | Snapshot _ => true
  | _ => false
  end.

Definition graph_activity (evs : list Event) : list Event :=
  List.filter is_graph_activity evs.

(** What the loop body of [runWorkflow] logs for a value. *)
Definition body_log (value : AgentState) : list Event :=
  match last (messages value) with
  | Some m =>
      Log LInfo "[runWorkflow] 节点: ${lastMessage.__type}, content: ${lastMessage.content}" (PMessage m)
      :: match response_metadata m with
         | Some meta => [Log LInfo "[runWorkflow] response_metadata:" (PMetadata meta)]
         | None => []
         end
  | None => []
  end.

(** The routing policy in the words of the specification: the class of the
    last message, if there is one, decides. *)
Definition spec_route (last_class : option MessageClass) : string :=
  match last_class with
  | Some HumanMessage => "health_agent"
  | _ => END
  end.

(** What [routeLogic] logs on a state. *)
Definition route_log (st : AgentState) : list Event :=
  [Log LDebug "[Supervisor] Deciding next step..." NoPayload;
   if Js.instanceof_HumanMessage (last (messages st))
   then Log LInfo "[Supervisor] Route to Health Agent。" NoPayload
   else Log LInfo "[Supervisor] Route to END。" NoPayload].

(** The message channel of each snapshot extends that of the one before,
    starting from [prev]. *)
Fixpoint grows (prev : list BaseMessage) (snaps : list AgentState) : Prop :=
  match snaps with
  | [] => True
  | s :: rest => prev `prefix_of` messages s /\ grows (messages s) rest
  end.

(** The message channel of each snapshot is longer than that of the one
    before. *)
Fixpoint strictly_grows (snaps : list AgentState) : Prop :=
  match snaps with
  | s1 :: rest =>
      match rest with
      | s2 :: _ => (length (messages s1) < length (messages s2))%nat
      | [] => True
      end /\ strictly_grows rest
  | [] => True
  end.

(** A configuration value is missing when the variable is not set or is set
    to the empty string, and present otherwise. *)
Definition config_missing (e : gmap string string) (name : string) : Prop :=
  e !! name = None \/ e !! name = Some "".

Definition config_present (e : gmap string string) (name : string) : Prop :=
  exists s, e !! name = Some s /\ s <> "".

(** The graph [buildWorkflow] hands to the caller. *)
Definition compiled_workflow (healthAgentRunnable : Runnable Oracle)
  : CompiledStateGraph Oracle :=
  let g := workflow_graph healthAgentRunnable in
  {| cg_channel := sg_channel g; cg_nodes := sg_nodes g;
     cg_edges := list_to_map ((fun e => (edge_source e, e)) <$> sg_edges g);
     cg_entry := "supervisor" |}.

End Observations.

(** The graph activity of [k] delegations from state [st] with the model
    service in state [o]: the agent's node, the snapshot of the channel with
    the response appended, and the supervisor's node again. *)
Fixpoint expected_rounds {Oracle : Type}
    (agent_invoke : ChatOpenAI -> AgentState -> Oracle -> (string + AgentState) * Oracle)
    (l : ChatOpenAI) (k : nat) (st : AgentState) (o : Oracle) : list Event :=
  match k with
  | O => []
  | S k' =>
      match agent_invoke l st o with
      | (inr response, o') =>
          let merged := {| messages := messages st ++ messages response |} in
          NodeRun "health_agent" :: Snapshot merged :: NodeRun "supervisor"
          :: expected_rounds agent_invoke l k' merged o'
      | (inl _, _) => []
      end
  end.

(** ** A concrete run: a service that answers every call the same way *)
Module Scenario.

Definition hi : BaseMessage :=
  {| msg_class := HumanMessage; content := "hi"; response_metadata := None |}.

Definition hello : BaseMessage :=
  {| msg_class := AIMessage; content := "hello"; response_metadata := None |}.

Definition llm : ChatOpenAI :=
  {| llm_apiKey := Some "key"; llm_model := Some "endpoint";
     llm_baseURL := Some "https://ark.example/api"; llm_temperature := 0 |}.

(** [dotenv.config] that finds no file. *)
Definition no_dotenv (path : string) (e : gmap string string) : gmap string string := e.

(** The agent appends nothing of the input and answers [hello]. *)
Definition answers_hello (l : ChatOpenAI) (st : AgentState) (o : unit)
  : (string + AgentState) * unit :=
  (inr {| messages := [hello] |}, o).

(** The agent answers as a ReAct agent does: the input followed by [hello]. *)
Definition echoes_then_hello (l : ChatOpenAI) (st : AgentState) (o : unit)
  : (string + AgentState) * unit :=
  (inr {| messages := messages st ++ [hello] |}, o).

Definition full_env : gmap string string :=
  <["ENDPOINT_ID" := "endpoint"]>
    (<["ENDPOINT_API_KEY" := "key"]>
       (<["ARK_BASE_URL" := "https://ark.example/api"]> ∅)).

Definition world (e : gmap string string) : World unit :=
  {| env := e; events := []; oracle := tt |}.

(** The compiled workflow over the agent that answers [hello]. *)
Definition graph : CompiledStateGraph unit :=
  compiled_workflow (runnable_of answers_hello llm).

Definition start : AgentState := {| messages := [hi] |}.

Definition replied : AgentState := {| messages := [hi; hello] |}.

End Scenario.

(** ** The chat handler loop of the earlier revision of [main] *)
Module ChatHandler.

(** The fields of a message that the loop reads. *)
Record Message : Set := mkMessage {
  m_id : option string;
  m_content : string;
  m_response_metadata : option string
}.

(** The update of one node of the agent graph, [{ messages }]. *)
Record NodeUpdate : Set := mkUpdate { u_messages : list Message }.

(** What the stream yields in 'updates' mode, as far as the loop looks at
    it: the update of [agent] and the update of [tools], each possibly
    absent. *)
Record Chunk : Set := mkChunk {
  agent : option NodeUpdate;
  tools : option NodeUpdate
}.

(** The calls to the logger. *)
Inductive Line : Set :=
| DebugLine (text : string)
| InfoLine (text : string)
| InfoMetadata (text : string) (meta : option string).

(** A string or [undefined] inside a template literal. *)
Definition template (v : option string) : string :=
  match v with
  | Some s => s
  | None => "undefined"
  end.

(** The [if (agent) ... else if (tools) ...] of the loop body: the line it
    logs and [rawResponseMessages] after it. *)
Definition collect (c : Chunk) : list Line * list Message :=
  let rawResponseMessages := [] in
  match agent c with
  | Some a =>
      ([DebugLine ("[chatHandler] Receive " +:+ pretty (length (u_messages a))
                   +:+ " AI Messages")],
       rawResponseMessages ++ u_messages a)
  | None =>
      match tools c with
      | Some t =>
          ([DebugLine ("[chatHandler] Receive " +:+ pretty (length (u_messages t))
                       +:+ " Tool Messages")],
           rawResponseMessages ++ u_messages t)
      | None => ([], rawResponseMessages)
      end
  end.

(** The body of the inner [for] loop. *)
Definition report (m : Message) : list Line :=
  [InfoLine ("id: " +:+ template (m_id m) +:+ ", content: " +:+ m_content m);
   InfoMetadata "response_metadata: " (m_response_metadata m)].

(** The body of the [for await] loop: the lines it logs for one chunk. *)
Definition handle_chunk (c : Chunk) : list Line :=
  fst (collect c) ++ flat_map report (snd (collect c)).

(** The [for await] loop over the chunks the stream yields. *)
Definition handle_stream (chunks : list Chunk) : list Line :=
  flat_map handle_chunk chunks.

Definition is_info (l : Line) : bool :=
  match l with
  | DebugLine _ => false
  | _ => true
  end.

(** The messages of a chunk the loop looks at. *)
Definition selected (c : Chunk) : list Message :=
  match agent c, tools c with
  | Some a, _ => u_messages a
  | None, Some t => u_messages t
  | None, None => []
  end.

End ChatHandler.

(** ** Shapes of runs *)

(** The node names of [k] delegations, each followed by the supervisor. *)
Fixpoint delegations (k : nat) : list string :=
  match k with
  | O => []
  | S k' => "health_agent" :: "supervisor" :: delegations k'
  end.

(** The events of start-up up to the compiled graph, for an LLM. *)
Definition startup_events (l : ChatOpenAI) : list Event :=
  [LlmCreated l;
   Log LInfo "[initializeEnvironmentAndLLM] ChatOpenAI LLM Initialized." NoPayload;
   Log LInfo "[createHealthAgentRunnable] tools.length=0" NoPayload;
   AgentCreated;
   Log LInfo "[createHealthAgentRunnable] healthAgentRunnable Initialized." NoPayload;
   Log LInfo "[buildWorkflow] StateGraph Initialized." NoPayload;
   Log LInfo "[buildWorkflow] health_agent, supervisor added into StateGraph." NoPayload;
   GraphCompiled;
   Log LInfo "[buildWorkflow] LangGraph workflow compiled." NoPayload].

(** The LLM options [initializeEnvironmentAndLLM] reads from an environment. *)
Definition llm_of_env (e : gmap string string) : ChatOpenAI :=
  {| llm_apiKey := e !! "ENDPOINT_API_KEY"; llm_model := e !! "ENDPOINT_ID";
     llm_baseURL := e !! "ARK_BASE_URL"; llm_temperature := 0 |}.

(** ** More concrete agents *)
Module Cases.

(** The agent rejects every call. *)
Definition rejects (l : ChatOpenAI) (st : AgentState) (o : unit)
  : (string + AgentState) * unit :=
  (inl "503", o).

(** The agent answers every call with no message. *)
Definition silent (l : ChatOpenAI) (st : AgentState) (o : unit)
  : (string + AgentState) * unit :=
  (inr {| messages := [] |}, o).

(** The agent counts its calls and answers [hello]. *)
Definition counting (l : ChatOpenAI) (st : AgentState) (o : nat)
  : (string + AgentState) * nat :=
  (inr {| messages := [Scenario.hello] |}, S o).

(** The agent answers its first call with no message and every later call
    with [hello]. *)
Definition pauses_then_hello (l : ChatOpenAI) (st : AgentState) (o : nat)
  : (string + AgentState) * nat :=
  match o with
  | O => (inr {| messages := [] |}, S o)
  | S _ => (inr {| messages := [Scenario.hello] |}, S o)
  end.

Definition tool_result : ChatHandler.Message :=
  {| ChatHandler.m_id := None; ChatHandler.m_content := "42";
     ChatHandler.m_response_metadata := None |}.

Definition answer : ChatHandler.Message :=
  {| ChatHandler.m_id := Some "run-1"; ChatHandler.m_content := "hello";
     ChatHandler.m_response_metadata := Some "{}" |}.

End Cases.

(** * Properties *)

(** ** JavaScript indexing and truthiness *)

Lemma Js_index_last {A : Type} (a : list A) :
  Js.index a (Js.length a - 1) = last a.
Proof.
  unfold Js.index, Js.length.
  destruct a as [|x a'].
  - reflexivity.
  - replace (Z.of_nat (length (x :: a')) - 1) with (Z.of_nat (length a'))
      by (cbn [length]; lia).
    destruct (Z.ltb_spec (Z.of_nat (length a')) 0) as [Hneg|_]; [lia|].
    rewrite Nat2Z.id, last_lookup. reflexivity.
Qed.

Lemma Js_index_empty {A : Type} : Js.index (@nil A) (Js.length (@nil A) - 1) = None.
Proof. reflexivity. Qed.

Lemma truthy_false_iff (v : option string) :
  Js.truthy v = false <-> v = None \/ v = Some "".
Proof.
  destruct v as [s|]; cbn.
  - destruct (String.eqb_spec s "") as [->|Hne]; cbn.
    + split; [intros _; right; reflexivity | reflexivity].
    + split; [discriminate | intros [H|H]; congruence].
  - split; [intros _; left; reflexivity | reflexivity].
Qed.

Lemma truthy_true_iff (v : option string) :
  Js.truthy v = true <-> exists s, v = Some s /\ s <> "".
Proof.
  destruct v as [s|]; cbn.
  - destruct (String.eqb_spec s "") as [->|Hne]; cbn.
    + split; [discriminate | intros (s' & [= <-] & Hs); congruence].
    + split; [intros _; exists s; auto | reflexivity].
  - split; [discriminate | intros (s & H & _); discriminate].
Qed.

Lemma instanceof_HumanMessage_spec (v : option BaseMessage) :
  Js.instanceof_HumanMessage v = true
  <-> exists m, v = Some m /\ msg_class m = HumanMessage.
Proof.
  destruct v as [m|]; cbn.
  - rewrite bool_decide_eq_true. split.
    + intros H. exists m. auto.
    + intros (m' & [= <-] & H). exact H.
  - split; [discriminate | intros (m & H & _); discriminate].
Qed.

(** ** The reducer of the message channel *)

Lemma reducer_is_append (x y : list BaseMessage) :
  value messages_channel x y = x ++ y.
Proof. reflexivity. Qed.

(** C3: the reducer of the messages channel returns the current value
    followed by the delta's elements in their order.  Nothing is dropped
    and nothing is merged: the length is the sum of the lengths, every
    position of the result is the position of [A] or of [B] it comes from,
    and every message occurs as often as in [A] and [B] together. *)
Theorem merge_appends_in_order (A B : list BaseMessage) :
  value messages_channel A B = A ++ B
  /\ length (value messages_channel A B) = (length A + length B)%nat
  /\ (forall i : nat,
        value messages_channel A B !! i
        = if decide (i < length A)%nat then A !! i else B !! (i - length A)%nat)
  /\ (forall m : BaseMessage,
        count_occ BaseMessage_eq_dec (value messages_channel A B) m
        = (count_occ BaseMessage_eq_dec A m + count_occ BaseMessage_eq_dec B m)%nat).
Proof.
  rewrite reducer_is_append. split; [reflexivity|]. split; [apply length_app|].
  split.
  - intros i. destruct (decide (i < length A)%nat) as [Hlt|Hge].
    + apply lookup_app_l, Hlt.
    + apply lookup_app_r. lia.
  - intros m. apply count_occ_app.
Qed.

(** C8: the reducer is associative and the channel's default, the empty
    list, is its identity on both sides; hence merging deltas one after the
    other in execution order is merging their concatenation, however the
    merges are grouped. *)
Theorem reducer_monoid :
  default messages_channel tt = []
  /\ (forall y, value messages_channel (default messages_channel tt) y = y)
  /\ (forall x, value messages_channel x (default messages_channel tt) = x)
  /\ (forall x y z,
        value messages_channel (value messages_channel x y) z
        = value messages_channel x (value messages_channel y z))
  /\ (forall x deltas,
        fold_left (value messages_channel) deltas x
        = value messages_channel x
            (fold_right (value messages_channel) (default messages_channel tt) deltas)).
Proof.
  split; [reflexivity|]. split; [reflexivity|].
  split; [intros x; cbn; unfold Js.concat; apply app_nil_r|].
  split; [intros x y z; cbn; unfold Js.concat; symmetry; apply app_assoc|].
  intros x deltas. revert x.
  induction deltas as [|d ds IH]; intros x; cbn [fold_left fold_right].
  - cbn. unfold Js.concat. symmetry. apply app_nil_r.
  - rewrite IH. cbn. unfold Js.concat. symmetry. apply app_assoc.
Qed.

(** ** Running the pieces of the program *)
Section Runs.

Context {Oracle : Type}.
Variable dotenv_config : string -> gmap string string -> gmap string string.
Variable agent_invoke :
  ChatOpenAI -> AgentState -> Oracle -> (string + AgentState) * Oracle.

Implicit Types (w : World Oracle) (st : AgentState) (llm : ChatOpenAI).

Lemma add_events_nil w : add_events w [] = w.
Proof. destruct w. unfold add_events. cbn. rewrite app_nil_r. reflexivity. Qed.

Lemma add_events_app w (a b : list Event) :
  add_events (add_events w a) b = add_events w (a ++ b).
Proof. unfold add_events. cbn. rewrite app_assoc. reflexivity. Qed.

Lemma emit_run (e : Event) w : emit e w = (Ok tt, add_events w [e]).
Proof. reflexivity. Qed.

Lemma logger_run lvl text p w :
  logger lvl text p w = (Ok tt, add_events w [Log lvl text p]).
Proof. reflexivity. Qed.

Lemma executed_nodes_app (a b : list Event) :
  executed_nodes (a ++ b) = executed_nodes a ++ executed_nodes b.
Proof. apply omap_app. Qed.

Lemma snapshots_app (a b : list Event) :
  snapshots (a ++ b) = snapshots a ++ snapshots b.
Proof. apply omap_app. Qed.

Lemma body_log_quiet (value : AgentState) :
  executed_nodes (body_log value) = [] /\ snapshots (body_log value) = [].
Proof.
  unfold body_log. destruct (last (messages value)) as [m|]; [|split; reflexivity].
  destruct (response_metadata m); split; reflexivity.
Qed.

Lemma route_log_quiet st :
  executed_nodes (route_log st) = [] /\ snapshots (route_log st) = [].
Proof.
  unfold route_log.
  destruct (Js.instanceof_HumanMessage (last (messages st))); split; reflexivity.
Qed.

Lemma runWorkflow_body_run (value : AgentState) w :
  runWorkflow_body value w = (Ok tt, add_events w (body_log value)).
Proof.
  unfold runWorkflow_body, body_log. rewrite Js_index_last.
  destruct (last (messages value)) as [m|].
  - unfold bind. rewrite logger_run. cbv beta iota.
    destruct (response_metadata m) as [meta|].
    + rewrite logger_run, add_events_app. reflexivity.
    + reflexivity.
  - unfold ret. rewrite add_events_nil. reflexivity.
Qed.

Lemma spec_route_instanceof (v : option BaseMessage) :
  spec_route (msg_class <$> v)
  = if Js.instanceof_HumanMessage v then "health_agent" else END.
Proof.
  destruct v as [m|]; [|reflexivity]. cbn.
  destruct (msg_class m); reflexivity.
Qed.

Lemma routeLogic_run st w :
  routeLogic st w
  = (Ok (spec_route (msg_class <$> last (messages st))), add_events w (route_log st)).
Proof.
  unfold routeLogic, route_log. rewrite Js_index_last, spec_route_instanceof.
  unfold bind. rewrite logger_run. cbv beta iota.
  destruct (Js.instanceof_HumanMessage (last (messages st)));
    rewrite logger_run; cbv beta iota; unfold ret; rewrite add_events_app;
    reflexivity.
Qed.

Lemma supervisorNode_run st w :
  supervisorNode st w
  = (Ok {| upd_messages := None |},
     add_events w [Log LDebug "[Supervisor] 通过 Supervisor 节点。" NoPayload]).
Proof. reflexivity. Qed.

(** C2: at the supervisor the router answers 'health_agent' exactly when
    the last element of the message channel is a HumanMessage, and END in
    every other case; the answer is a function of the class of the last
    message alone ([spec_route]), whatever the other messages, their number
    and their contents are. *)
Theorem routeLogic_decides_on_last_class st w :
  (fst (routeLogic st w) = Ok "health_agent"
   <-> exists m, last (messages st) = Some m /\ msg_class m = HumanMessage)
  /\ (fst (routeLogic st w) = Ok END
      <-> ~ exists m, last (messages st) = Some m /\ msg_class m = HumanMessage)
  /\ fst (routeLogic st w) = Ok (spec_route (msg_class <$> last (messages st)))
  /\ (forall st' w',
        msg_class <$> last (messages st') = msg_class <$> last (messages st) ->
        fst (routeLogic st' w') = fst (routeLogic st w)).
Proof.
  rewrite routeLogic_run. cbn [fst].
  rewrite spec_route_instanceof.
  pose proof (instanceof_HumanMessage_spec (last (messages st))) as Hspec.
  destruct (Js.instanceof_HumanMessage (last (messages st))) eqn:Hh.
  - assert (Hex : exists m, last (messages st) = Some m /\ msg_class m = HumanMessage)
      by (apply Hspec; reflexivity).
    repeat split; auto.
    + intros [=].
    + intros Hn. contradiction.
    + intros st' w' Heq. rewrite routeLogic_run. cbn [fst].
      rewrite Heq, spec_route_instanceof, Hh. reflexivity.
  - assert (Hnex : ~ exists m, last (messages st) = Some m /\ msg_class m = HumanMessage)
      by (intros Hex; apply Hspec in Hex; discriminate).
    repeat split; auto.
    + intros [=].
    + intros Hex. contradiction.
    + intros st' w' Heq. rewrite routeLogic_run. cbn [fst].
      rewrite Heq, spec_route_instanceof, Hh. reflexivity.
Qed.

(** C6: the router is deterministic.  Its label is the same in every world
    it is evaluated in: nothing but the state (not the environment, not the
    log so far, not the state of the model service) enters the decision. *)
Theorem routeLogic_deterministic st (w1 w2 : World Oracle) :
  fst (routeLogic st w1) = fst (routeLogic st w2).
Proof. rewrite !routeLogic_run. reflexivity. Qed.

(** ** The compiled workflow *)

(** Both revisions of [buildWorkflow] assemble the same graph. *)
Lemma workflow_graph_revisions_agree (r : Runnable Oracle) :
  workflow_graph_setEntryPoint r = workflow_graph r.
Proof. reflexivity. Qed.

Lemma workflow_outcomes_health_agent :
  (<[END := END]> (<["health_agent" := "health_agent"]> (∅ : gmap string string)))
    !! "health_agent" = Some "health_agent".
Proof. reflexivity. Qed.

Lemma workflow_outcomes_END :
  (<[END := END]> (<["health_agent" := "health_agent"]> (∅ : gmap string string)))
    !! END = Some END.
Proof. reflexivity. Qed.

Lemma workflow_node_supervisor (r : Runnable Oracle) :
  cg_nodes (compiled_workflow r) !! "supervisor" = Some supervisorNode.
Proof. reflexivity. Qed.

Lemma workflow_node_health_agent (r : Runnable Oracle) :
  cg_nodes (compiled_workflow r) !! "health_agent"
  = Some (fun state => callHealthAgentNode state r).
Proof. reflexivity. Qed.

Lemma workflow_nodes_inv (r : Runnable Oracle) (name : string) task :
  cg_nodes (compiled_workflow r) !! name = Some task ->
  (name = "supervisor" /\ task = supervisorNode)
  \/ (name = "health_agent" /\ task = fun state => callHealthAgentNode state r).
Proof.
  change (cg_nodes (compiled_workflow r))
    with (<["supervisor" := supervisorNode]>
            (<["health_agent" := fun state => callHealthAgentNode state r]>
               (∅ : gmap string (AgentState -> M (World Oracle) PartialAgentState)))).
  intros H. apply lookup_insert_Some in H as [[<- <-]|[_ H]]; [left; auto|].
  apply lookup_insert_Some in H as [[<- <-]|[_ H]]; [right; auto|].
  rewrite lookup_empty in H. discriminate.
Qed.

Lemma workflow_edge_supervisor (r : Runnable Oracle) :
  cg_edges (compiled_workflow r) !! "supervisor"
  = Some (ConditionalEdge "supervisor" routeLogic
            (<[END := END]> (<["health_agent" := "health_agent"]> ∅))).
Proof. reflexivity. Qed.

Lemma workflow_edge_health_agent (r : Runnable Oracle) :
  cg_edges (compiled_workflow r) !! "health_agent"
  = Some (PlainEdge "health_agent" "supervisor").
Proof. reflexivity. Qed.

Lemma workflow_channel (r : Runnable Oracle) :
  cg_channel (compiled_workflow r) = messages_channel.
Proof. reflexivity. Qed.

Lemma workflow_entry (r : Runnable Oracle) :
  cg_entry (compiled_workflow r) = "supervisor".
Proof. reflexivity. Qed.

(** [buildWorkflow] passes the validation of [compile]. *)
Lemma buildWorkflow_run (r : Runnable Oracle) w :
  buildWorkflow r w
  = (Ok (compiled_workflow r),
     add_events w
       [Log LInfo "[buildWorkflow] StateGraph Initialized." NoPayload;
        Log LInfo "[buildWorkflow] health_agent, supervisor added into StateGraph." NoPayload;
        GraphCompiled;
        Log LInfo "[buildWorkflow] LangGraph workflow compiled." NoPayload]).
Proof.
  unfold buildWorkflow, bind. rewrite !logger_run. cbv beta iota.
  unfold compile.
  replace (sg_entry (workflow_graph r)) with (Some "supervisor") by reflexivity.
  replace (registered (workflow_graph r) "supervisor") with true by reflexivity.
  replace (forallb (edge_ok (workflow_graph r)) (sg_edges (workflow_graph r)))
    with true by (vm_compute; reflexivity).
  replace (bool_decide (NoDup (edge_source <$> sg_edges (workflow_graph r))))
    with true by (vm_compute; reflexivity).
  cbn [negb]. unfold bind. rewrite emit_run. cbv beta iota.
  unfold ret at 1. rewrite logger_run. cbv beta iota. unfold ret.
  rewrite !add_events_app. reflexivity.
Qed.

(** ** One turn of the loop at each node of the workflow *)

Lemma with_oracle_add_events w (o : Oracle) (evs : list Event) :
  with_oracle (add_events w evs) o = add_events (with_oracle w o) evs.
Proof. reflexivity. Qed.

Lemma workflow_outcomes_spec_route (c : option MessageClass) :
  (<[END := END]> (<["health_agent" := "health_agent"]> (∅ : gmap string string)))
    !! spec_route c = Some (spec_route c).
Proof. destruct c as [[]|]; reflexivity. Qed.

Ltac run_effects :=
  repeat (first [ rewrite emit_run | rewrite logger_run
                | rewrite runWorkflow_body_run | rewrite routeLogic_run
                | rewrite supervisorNode_run ];
          cbv beta iota).

Lemma exec_step_supervisor (r : Runnable Oracle) st w :
  exec_step (compiled_workflow r) runWorkflow_body "supervisor" st w
  = (Ok (spec_route (msg_class <$> last (messages st)), st),
     add_events w
       ([NodeRun "supervisor";
         Log LDebug "[Supervisor] 通过 Supervisor 节点。" NoPayload]
        ++ route_log st)).
Proof.
  unfold exec_step. rewrite workflow_node_supervisor.
  unfold bind. run_effects.
  change (apply_update (cg_channel (compiled_workflow r)) st {| upd_messages := None |})
    with st.
  cbn [upd_messages]. unfold ret at 1. cbv beta iota.
  unfold resolve_next. rewrite workflow_edge_supervisor.
  unfold bind. run_effects.
  rewrite workflow_outcomes_spec_route. unfold ret.
  rewrite !add_events_app. reflexivity.
Qed.

Lemma exec_step_health_agent llm st w (response : AgentState) (o : Oracle) :
  agent_invoke llm st (oracle w) = (inr response, o) ->
  exec_step (compiled_workflow (runnable_of agent_invoke llm)) runWorkflow_body
    "health_agent" st w
  = (Ok ("supervisor", {| messages := messages st ++ messages response |}),
     add_events (with_oracle w o)
       ([NodeRun "health_agent";
         Log LDebug "[HealthAgent] 调用健康助手节点..." NoPayload;
         Log LDebug "[HealthAgent] 收到响应:" (PResponse response);
         Snapshot {| messages := messages st ++ messages response |}]
        ++ body_log {| messages := messages st ++ messages response |})).
Proof.
  intros Hinvoke.
  unfold exec_step. rewrite workflow_node_health_agent.
  unfold bind. run_effects.
  unfold callHealthAgentNode, bind. run_effects.
  unfold runnable_of. cbn [oracle add_events]. rewrite Hinvoke.
  run_effects. unfold ret. cbv beta iota.
  change (apply_update _ st _)
    with {| messages := messages st ++ messages response |}.
  cbn [upd_messages]. cbv beta iota. run_effects.
  unfold resolve_next. rewrite workflow_edge_health_agent. unfold ret.
  unfold add_events, with_oracle. cbn [env events oracle].
  rewrite <- !app_assoc. reflexivity.
Qed.

Lemma exec_step_health_agent_rejects llm st w (detail : string) (o : Oracle) :
  agent_invoke llm st (oracle w) = (inl detail, o) ->
  exec_step (compiled_workflow (runnable_of agent_invoke llm)) runWorkflow_body
    "health_agent" st w
  = (Throw (TaskExecutionError detail),
     add_events (with_oracle w o)
       [NodeRun "health_agent";
        Log LDebug "[HealthAgent] 调用健康助手节点..." NoPayload]).
Proof.
  intros Hinvoke.
  unfold exec_step. rewrite workflow_node_health_agent.
  unfold bind. run_effects.
  unfold callHealthAgentNode, bind. run_effects.
  unfold runnable_of. cbn [oracle add_events]. rewrite Hinvoke.
  unfold add_events, with_oracle. cbn [env events oracle].
  rewrite <- !app_assoc. reflexivity.
Qed.

Lemma last_human_routes st (m : BaseMessage) :
  last (messages st) = Some m -> msg_class m = HumanMessage ->
  spec_route (msg_class <$> last (messages st)) = "health_agent".
Proof. intros -> Hm. cbn. rewrite Hm. reflexivity. Qed.

Lemma last_other_routes st (m : BaseMessage) :
  last (messages st) = Some m -> msg_class m <> HumanMessage ->
  spec_route (msg_class <$> last (messages st)) = END.
Proof. intros -> Hm. cbn. destruct (msg_class m); [contradiction| | |]; reflexivity. Qed.

Lemma snapshots_body_log st : snapshots (body_log st) = [].
Proof. apply body_log_quiet. Qed.

Lemma snapshots_route_log st : snapshots (route_log st) = [].
Proof. apply route_log_quiet. Qed.

Lemma executed_nodes_body_log st : executed_nodes (body_log st) = [].
Proof. apply body_log_quiet. Qed.

Lemma executed_nodes_route_log st : executed_nodes (route_log st) = [].
Proof. apply route_log_quiet. Qed.

Ltac project_events :=
  cbn [events add_events with_oracle env oracle];
  rewrite ?executed_nodes_app, ?snapshots_app,
    ?snapshots_body_log, ?snapshots_route_log,
    ?executed_nodes_body_log, ?executed_nodes_route_log;
  cbn [executed_nodes snapshots omap list_omap app];
  rewrite ?app_nil_r.

(** C5: the supervisor node returns the empty update, the empty update
    leaves every state as it is under any channel definition, and so the
    state after the supervisor's turn of the loop is the state before it; the
    turn only logs and adds no snapshot, the environment and the model
    service are as before. *)
Theorem supervisor_step_changes_nothing (r : Runnable Oracle) st w :
  fst (supervisorNode st w) = Ok {| upd_messages := None |}
  /\ (forall ch, apply_update ch st {| upd_messages := None |} = st)
  /\ exists next w',
       exec_step (compiled_workflow r) runWorkflow_body "supervisor" st w
       = (Ok (next, st), w')
       /\ snapshots (events w') = snapshots (events w)
       /\ executed_nodes (events w') = executed_nodes (events w) ++ ["supervisor"]
       /\ env w' = env w /\ oracle w' = oracle w.
Proof.
  split; [reflexivity|]. split; [reflexivity|].
  eexists _, _. split; [apply exec_step_supervisor|].
  project_events. auto.
Qed.

Lemma count_occ_twice (pre response : list BaseMessage) (m : BaseMessage) :
  In m pre -> In m response ->
  (2 <= count_occ BaseMessage_eq_dec (pre ++ response) m)%nat.
Proof.
  intros Hpre Hresp. rewrite count_occ_app.
  apply (count_occ_In BaseMessage_eq_dec) in Hpre.
  apply (count_occ_In BaseMessage_eq_dec) in Hresp. lia.
Qed.

(** C10: when the agent runnable answers, the health_agent turn of the loop
    leaves the message channel equal to the messages before the turn
    followed by the whole list of the response: the history stays as a
    prefix.  If the response contains the messages of the input, every
    message that was there before the turn occurs at least twice
    afterwards. *)
Theorem health_agent_step_appends_response llm st w (response : AgentState) (o : Oracle) :
  agent_invoke llm st (oracle w) = (inr response, o) ->
  (exists w',
     exec_step (compiled_workflow (runnable_of agent_invoke llm)) runWorkflow_body
       "health_agent" st w
     = (Ok ("supervisor", {| messages := messages st ++ messages response |}), w')
     /\ snapshots (events w')
        = snapshots (events w) ++ [{| messages := messages st ++ messages response |}])
  /\ messages st `prefix_of` (messages st ++ messages response)
  /\ ((forall x, In x (messages st) -> In x (messages response)) ->
      forall m, In m (messages st) ->
        (2 <= count_occ BaseMessage_eq_dec (messages st ++ messages response) m)%nat).
Proof.
  intros Hinvoke. split; [|split].
  - eexists. split; [apply exec_step_health_agent; exact Hinvoke|].
    project_events. reflexivity.
  - apply prefix_app_r. reflexivity.
  - intros Hecho m Hm. apply count_occ_twice; auto.
Qed.

(** ** Whole runs *)

Lemma exec_loop_unfold (fuel : nat) (g : CompiledStateGraph Oracle) consumer current st w :
  exec_loop (S fuel) g consumer current st w
  = match exec_step g consumer current st w with
    | (Ok r, w') =>
        if String.eqb (fst r) END then (Ok (Halted (snd r)), w')
        else exec_loop fuel g consumer (fst r) (snd r) w'
    | (Throw e, w') => (Throw e, w')
    | (Exit n, w') => (Exit n, w')
    end.
Proof.
  cbn [exec_loop]. unfold bind.
  destruct (exec_step g consumer current st w) as [[r|e|n] w']; try reflexivity.
  destruct (String.eqb (fst r) END); reflexivity.
Qed.

(** A state that ends in something other than a user message, or is empty,
    halts at the supervisor. *)
Lemma run_halts_at_supervisor (r : Runnable Oracle) (fuel : nat) st w :
  spec_route (msg_class <$> last (messages st)) = END ->
  exec_loop (S fuel) (compiled_workflow r) runWorkflow_body "supervisor" st w
  = (Ok (Halted st),
     add_events w
       ([NodeRun "supervisor";
         Log LDebug "[Supervisor] 通过 Supervisor 节点。" NoPayload]
        ++ route_log st)).
Proof.
  intros Hroute. rewrite exec_loop_unfold, exec_step_supervisor.
  cbn [fst snd]. rewrite Hroute. reflexivity.
Qed.

(** The stream first yields the initial state, then the loop starts at the
    entry node. *)
Lemma runWorkflow_run (fuel : nat) (g : CompiledStateGraph Oracle) st w :
  runWorkflow fuel g st w
  = exec_loop fuel g runWorkflow_body (cg_entry g) st
      (add_events w (Snapshot st :: body_log st)).
Proof.
  unfold runWorkflow, stream, materialize. cbn [upd_messages].
  replace {| messages := messages st |} with st by (destruct st; reflexivity).
  unfold bind. rewrite emit_run. cbv beta iota.
  rewrite runWorkflow_body_run. cbv beta iota.
  rewrite add_events_app. reflexivity.
Qed.

(** The three turns of a run from a user message that the agent answers. *)
Lemma run_three_turns llm (fuel : nat) st w (response : AgentState) (o : Oracle)
    (m_user m_reply : BaseMessage) :
  last (messages st) = Some m_user -> msg_class m_user = HumanMessage ->
  agent_invoke llm st (oracle w) = (inr response, o) ->
  last (messages response) = Some m_reply -> msg_class m_reply <> HumanMessage ->
  let merged := {| messages := messages st ++ messages response |} in
  exists w',
    runWorkflow (3 + fuel) (compiled_workflow (runnable_of agent_invoke llm)) st w
    = (Ok (Halted merged), w')
    /\ executed_nodes (events w')
       = executed_nodes (events w) ++ ["supervisor"; "health_agent"; "supervisor"]
    /\ snapshots (events w') = snapshots (events w) ++ [st; merged]
    /\ oracle w' = o.
Proof.
  intros Hlast Huser Hinvoke Hreply Hclass merged.
  rewrite runWorkflow_run, workflow_entry.
  change (3 + fuel)%nat with (S (S (S fuel))).
  rewrite exec_loop_unfold, exec_step_supervisor. cbn [fst snd].
  rewrite (last_human_routes st m_user Hlast Huser).
  change (String.eqb "health_agent" END) with false. cbv iota.
  rewrite exec_loop_unfold.
  rewrite (exec_step_health_agent llm st _ response o) by exact Hinvoke.
  cbn [fst snd]. change (String.eqb "supervisor" END) with false. cbv iota.
  fold merged.
  assert (Hmerged : spec_route (msg_class <$> last (messages merged)) = END).
  { apply (last_other_routes merged m_reply); [|exact Hclass].
    unfold merged. cbn [messages].
    destruct (messages response) as [|x xs] eqn:Hresp using rev_ind;
      [discriminate|].
    rewrite app_assoc, last_snoc. rewrite last_snoc in Hreply. exact Hreply. }
  rewrite (run_halts_at_supervisor _ fuel merged _ Hmerged).
  eexists. split; [reflexivity|].
  change (Snapshot st :: body_log st) with ([Snapshot st] ++ body_log st).
  project_events. rewrite <- !app_assoc. cbn [app]. auto.
Qed.


(** C9: on an empty message channel the index of the last message gives no
    value, the HumanMessage test fails and the router answers END; the run
    ends after the supervisor's turn with one snapshot, the agent is not
    invoked (the model service is untouched) and nothing is thrown. *)
Theorem empty_channel_run_ends_at_supervisor llm (fuel : nat) w :
  (1 <= fuel)%nat ->
  let empty := {| messages := [] |} in
  Js.index (messages empty) (Js.length (messages empty) - 1) = None
  /\ Js.instanceof_HumanMessage None = false
  /\ fst (routeLogic empty w) = Ok END
  /\ exists w',
       runWorkflow fuel (compiled_workflow (runnable_of agent_invoke llm)) empty w
       = (Ok (Halted empty), w')
       /\ executed_nodes (events w') = executed_nodes (events w) ++ ["supervisor"]
       /\ snapshots (events w') = snapshots (events w) ++ [empty]
       /\ oracle w' = oracle w.
Proof.
  intros Hfuel empty. split; [reflexivity|]. split; [reflexivity|].
  split; [rewrite routeLogic_run; reflexivity|].
  destruct fuel as [|fuel]; [lia|].
  rewrite runWorkflow_run, workflow_entry.
  rewrite run_halts_at_supervisor by reflexivity.
  eexists. split; [reflexivity|].
  change (Snapshot empty :: body_log empty) with ([Snapshot empty] ++ body_log empty).
  project_events. auto.
Qed.

(** ** Every run: what the stream yields *)

Lemma graph_activity_app (a b : list Event) :
  graph_activity (a ++ b) = graph_activity a ++ graph_activity b.
Proof. apply List.filter_app. Qed.

Lemma graph_activity_body_log st : graph_activity (body_log st) = [].
Proof.
  unfold body_log. destruct (last (messages st)) as [m|]; [|reflexivity].
  destruct (response_metadata m); reflexivity.
Qed.

Lemma graph_activity_route_log st : graph_activity (route_log st) = [].
Proof.
  unfold route_log.
  destruct (Js.instanceof_HumanMessage (last (messages st))); reflexivity.
Qed.

(** What a turn of the loop does at each node name. *)
Lemma exec_step_inv llm (current : string) st w
    (out : Outcome (string * AgentState)) w1 :
  exec_step (compiled_workflow (runnable_of agent_invoke llm)) runWorkflow_body
    current st w = (out, w1) ->
  (current = "supervisor"
   /\ out = Ok (spec_route (msg_class <$> last (messages st)), st)
   /\ exists evs, w1 = add_events w evs
        /\ executed_nodes evs = ["supervisor"] /\ snapshots evs = []
        /\ graph_activity evs = [NodeRun "supervisor"])
  \/ (current = "health_agent"
      /\ exists response o,
           agent_invoke llm st (oracle w) = (inr response, o)
           /\ out = Ok ("supervisor", {| messages := messages st ++ messages response |})
           /\ exists evs, w1 = add_events (with_oracle w o) evs
                /\ executed_nodes evs = ["health_agent"]
                /\ snapshots evs = [{| messages := messages st ++ messages response |}]
                /\ graph_activity evs
                   = [NodeRun "health_agent";
                      Snapshot {| messages := messages st ++ messages response |}])
  \/ (current = "health_agent"
      /\ exists detail o,
           agent_invoke llm st (oracle w) = (inl detail, o)
           /\ out = Throw (TaskExecutionError detail)
           /\ exists evs, w1 = add_events (with_oracle w o) evs
                /\ executed_nodes evs = ["health_agent"] /\ snapshots evs = [])
  \/ (current <> "supervisor" /\ current <> "health_agent"
      /\ out = Throw (ValidationError "the node is not registered") /\ w1 = w).
Proof.
  intros Hstep.
  destruct (cg_nodes (compiled_workflow (runnable_of agent_invoke llm)) !! current)
    as [task|] eqn:Hnode.
  - apply workflow_nodes_inv in Hnode as [[-> _]|[-> _]].
    + left. rewrite exec_step_supervisor in Hstep. injection Hstep as <- <-.
      split; [reflexivity|]. split; [reflexivity|].
      exists ([NodeRun "supervisor";
               Log LDebug "[Supervisor] 通过 Supervisor 节点。" NoPayload]
              ++ route_log st).
      split; [reflexivity|].
      rewrite !executed_nodes_app, !snapshots_app, !graph_activity_app.
      rewrite (proj1 (route_log_quiet st)), (proj2 (route_log_quiet st)),
        graph_activity_route_log.
      repeat split; reflexivity.
    + right.
      destruct (agent_invoke llm st (oracle w)) as [[detail|response] o] eqn:Hinvoke.
      * right. left.
        rewrite (exec_step_health_agent_rejects llm st w detail o Hinvoke)
          in Hstep.
        injection Hstep as <- <-. split; [reflexivity|].
        exists detail, o. split; [reflexivity|]. split; [reflexivity|].
        eexists. split; [reflexivity|]. split; reflexivity.
      * left.
        rewrite (exec_step_health_agent llm st w response o Hinvoke)
          in Hstep.
        injection Hstep as <- <-. split; [reflexivity|].
        exists response, o. split; [reflexivity|]. split; [reflexivity|].
        exists ([NodeRun "health_agent";
                 Log LDebug "[HealthAgent] 调用健康助手节点..." NoPayload;
                 Log LDebug "[HealthAgent] 收到响应:" (PResponse response);
                 Snapshot {| messages := messages st ++ messages response |}]
                ++ body_log {| messages := messages st ++ messages response |}).
        split; [reflexivity|].
        rewrite !executed_nodes_app, !snapshots_app, !graph_activity_app.
        rewrite (proj1 (body_log_quiet _)), (proj2 (body_log_quiet _)),
          graph_activity_body_log.
        repeat split; reflexivity.
  - right. right. right.
    assert (Hsup : current <> "supervisor").
    { intros ->.
      pose proof (eq_trans (eq_sym (workflow_node_supervisor _)) Hnode) as Habsurd.
      discriminate. }
    assert (Hagent : current <> "health_agent").
    { intros ->.
      pose proof (eq_trans (eq_sym (workflow_node_health_agent _)) Hnode) as Habsurd.
      discriminate. }
    unfold exec_step in Hstep.
    match type of Hstep with
    | context [match ?x with _ => _ end] => destruct x as [task|] eqn:Hnode'
    end.
    + pose proof (eq_trans (eq_sym Hnode') Hnode) as Habsurd. discriminate.
    + injection Hstep as <- <-. auto.
Qed.

Lemma spec_route_cases (c : option MessageClass) :
  (spec_route c = "health_agent" /\ c = Some HumanMessage)
  \/ (spec_route c = END /\ c <> Some HumanMessage).
Proof. destruct c as [[]|]; cbn; auto; right; split; auto; discriminate. Qed.

Lemma executed_nodes_step w (evs : list Event) (o : Oracle) :
  executed_nodes (events (add_events (with_oracle w o) evs))
  = executed_nodes (events w) ++ executed_nodes evs.
Proof. cbn [events add_events with_oracle]. apply executed_nodes_app. Qed.

Lemma last_cons_or {A : Type} (d x : A) (l : list A) :
  match last (x :: l) with Some y => y | None => d end
  = match last l with Some y => y | None => x end.
Proof. rewrite last_cons. destruct (last l); reflexivity. Qed.

(** The graph activity of a run that reaches END, from any node of the
    workflow. *)
Lemma exec_loop_activity llm (fuel : nat) :
  forall (current : string) st w (final : AgentState) w',
    exec_loop fuel (compiled_workflow (runnable_of agent_invoke llm)) runWorkflow_body
      current st w = (Ok (Halted final), w') ->
    exists (k : nat) (evs : list Event),
      events w' = events w ++ evs
      /\ graph_activity evs
         = (if String.eqb current "supervisor"
            then NodeRun "supervisor" :: expected_rounds agent_invoke llm k st (oracle w)
            else expected_rounds agent_invoke llm (S k) st (oracle w))
      /\ executed_nodes evs
         = (if String.eqb current "supervisor"
            then "supervisor" :: delegations k else delegations (S k))
      /\ length (snapshots evs) = (if String.eqb current "supervisor" then k else S k)
      /\ grows (messages st) (snapshots evs)
      /\ match last (snapshots evs) with Some s => s | None => st end = final.
Proof.
  induction fuel as [|fuel IH]; intros current st w final w' Hrun; [discriminate|].
  rewrite exec_loop_unfold in Hrun.
  destruct (exec_step _ _ current st w) as [out w1] eqn:Hstep.
  apply exec_step_inv in Hstep
    as [(-> & -> & e1 & -> & Hn1 & Hs1 & Ha1)
       |[(-> & response & o & Hinvoke & -> & e1 & -> & Hn1 & Hs1 & Ha1)
        |[(_ & detail & o & _ & -> & _)|(_ & _ & -> & _)]]];
    try discriminate.
  - cbn [fst snd] in Hrun.
    change (String.eqb "supervisor" "supervisor") with true. cbv iota.
    destruct (spec_route_cases (msg_class <$> last (messages st)))
      as [[Hroute _]|[Hroute _]]; rewrite Hroute in Hrun.
    + change (String.eqb "health_agent" END) with false in Hrun. cbv iota in Hrun.
      apply IH in Hrun as (k & e2 & Hev & Hact & Hnodes & Hlen & Hgrows & Hfinal).
      change (String.eqb "health_agent" "supervisor") with false in Hact, Hnodes, Hlen.
      cbv iota in Hact, Hnodes, Hlen. cbn [oracle add_events] in Hact.
      exists (S k), (e1 ++ e2).
      rewrite graph_activity_app, executed_nodes_app, snapshots_app.
      rewrite Ha1, Hn1, Hs1, Hact, Hnodes. cbn [app].
      repeat split; try assumption.
      rewrite Hev. cbn [events add_events]. symmetry. apply app_assoc.
    + change (String.eqb END END) with true in Hrun. cbv iota in Hrun.
      injection Hrun as <- <-. exists 0%nat, e1.
      rewrite Ha1, Hn1, Hs1. repeat split; reflexivity.
  - cbn [fst snd] in Hrun.
    change (String.eqb "supervisor" END) with false in Hrun. cbv iota in Hrun.
    change (String.eqb "health_agent" "supervisor") with false. cbv iota.
    apply IH in Hrun as (k & e2 & Hev & Hact & Hnodes & Hlen & Hgrows & Hfinal).
    change (String.eqb "supervisor" "supervisor") with true in Hact, Hnodes, Hlen.
    cbv iota in Hact, Hnodes, Hlen. cbn [oracle add_events with_oracle] in Hact.
    exists k, (e1 ++ e2).
    rewrite graph_activity_app, executed_nodes_app, snapshots_app.
    rewrite Ha1, Hn1, Hs1, Hact, Hnodes.
    cbn [app length grows expected_rounds delegations]. rewrite Hinvoke.
    split; [rewrite Hev; cbn [events add_events with_oracle]; symmetry; apply app_assoc|].
    split; [reflexivity|]. split; [reflexivity|]. split; [rewrite Hlen; reflexivity|].
    split; [split; [cbn [messages]; apply prefix_app_r; reflexivity|exact Hgrows]|].
    rewrite last_cons_or. exact Hfinal.
Qed.

(** C4 (as amended): a run that reaches END has yielded the initial state
    first and then one snapshot after each execution of health_agent, the
    node whose update names the message channel, each right after that node
    ran and before the supervisor ran again, holding the channel with the
    response appended; the supervisor's empty update yields nothing.  With
    [k] delegations the run executes 2k+1 nodes and yields k+1 snapshots, the
    last one being the final state.  The message channel of each snapshot
    extends that of the one before: it never shrinks, and it gets longer
    only by the messages of the response. *)
Theorem stream_yields_input_then_one_snapshot_per_update llm (fuel : nat) st w
    (final : AgentState) w' :
  runWorkflow fuel (compiled_workflow (runnable_of agent_invoke llm)) st w
  = (Ok (Halted final), w') ->
  exists (k : nat) (evs : list Event),
    events w' = events w ++ evs
    /\ graph_activity evs
       = Snapshot st :: NodeRun "supervisor"
         :: expected_rounds agent_invoke llm k st (oracle w)
    /\ executed_nodes evs = "supervisor" :: delegations k
    /\ length (executed_nodes evs) = (2 * k + 1)%nat
    /\ length (snapshots evs) = (k + 1)%nat
    /\ grows (messages st) (snapshots evs)
    /\ last (snapshots evs) = Some final.
Proof.
  rewrite runWorkflow_run, workflow_entry. intros Hrun.
  apply exec_loop_activity in Hrun as (k & evs & Hev & Hact & Hnodes & Hlen & Hgrows & Hfinal).
  change (String.eqb "supervisor" "supervisor") with true in Hact, Hnodes, Hlen.
  cbv iota in Hact, Hnodes, Hlen. cbn [oracle add_events] in Hact.
  exists k, ((Snapshot st :: body_log st) ++ evs).
  change (Snapshot st :: body_log st) with ([Snapshot st] ++ body_log st).
  rewrite !graph_activity_app, !executed_nodes_app, !snapshots_app.
  rewrite graph_activity_body_log, (proj1 (body_log_quiet st)),
    (proj2 (body_log_quiet st)), Hact, Hnodes.
  cbn [app graph_activity List.filter is_graph_activity executed_nodes snapshots
       omap list_omap length grows].
  split; [rewrite Hev; cbn [events add_events]; rewrite <- !app_assoc; reflexivity|].
  split; [reflexivity|]. split; [reflexivity|].
  split.
  { f_equal. clear. induction k as [|k IH]; [reflexivity|].
    cbn [delegations length]. rewrite IH. lia. }
  split; [rewrite Hlen; lia|].
  split; [split; [reflexivity|exact Hgrows]|].
  rewrite <- Hfinal. destruct (snapshots evs) as [|s rest]; [reflexivity|].
  rewrite last_cons.
  destruct (last (s :: rest)) as [y|] eqn:Hlast; [reflexivity|].
  apply last_None in Hlast. discriminate.
Qed.

(** ** Start-up *)

Lemma initializeEnvironmentAndLLM_exits w :
  Js.truthy (dotenv_config "local.env" (env w) !! "ENDPOINT_ID")
  && Js.truthy (dotenv_config "local.env" (env w) !! "ENDPOINT_API_KEY")
  && Js.truthy (dotenv_config "local.env" (env w) !! "ARK_BASE_URL") = false ->
  initializeEnvironmentAndLLM dotenv_config w
  = (Exit 1,
     {| env := dotenv_config "local.env" (env w);
        events := events w ++ [Log LError "[initializeEnvironmentAndLLM] 缺少必要的环境变量 (ENDPOINT_ID, ENDPOINT_API_KEY, ARK_BASE_URL)。" NoPayload];
        oracle := oracle w |}).
Proof.
  intros Hguard. unfold initializeEnvironmentAndLLM, bind, dotenv, process_env.
  cbn [env events oracle].
  replace (negb (Js.truthy (dotenv_config "local.env" (env w) !! "ENDPOINT_ID"))
           || negb (Js.truthy (dotenv_config "local.env" (env w) !! "ENDPOINT_API_KEY"))
           || negb (Js.truthy (dotenv_config "local.env" (env w) !! "ARK_BASE_URL")))
    with true.
  - reflexivity.
  - rewrite <- !negb_andb, Hguard. reflexivity.
Qed.

Lemma initializeEnvironmentAndLLM_proceeds w :
  Js.truthy (dotenv_config "local.env" (env w) !! "ENDPOINT_ID")
  && Js.truthy (dotenv_config "local.env" (env w) !! "ENDPOINT_API_KEY")
  && Js.truthy (dotenv_config "local.env" (env w) !! "ARK_BASE_URL") = true ->
  let llm :=
    {| llm_apiKey := dotenv_config "local.env" (env w) !! "ENDPOINT_API_KEY";
       llm_model := dotenv_config "local.env" (env w) !! "ENDPOINT_ID";
       llm_baseURL := dotenv_config "local.env" (env w) !! "ARK_BASE_URL";
       llm_temperature := 0 |} in
  initializeEnvironmentAndLLM dotenv_config w
  = (Ok llm,
     {| env := dotenv_config "local.env" (env w);
        events := events w ++
          [LlmCreated llm;
           Log LInfo "[initializeEnvironmentAndLLM] ChatOpenAI LLM Initialized." NoPayload];
        oracle := oracle w |}).
Proof.
  intros Hguard llm. unfold initializeEnvironmentAndLLM, bind, dotenv, process_env.
  cbn [env events oracle].
  replace (negb (Js.truthy (dotenv_config "local.env" (env w) !! "ENDPOINT_ID"))
           || negb (Js.truthy (dotenv_config "local.env" (env w) !! "ENDPOINT_API_KEY"))
           || negb (Js.truthy (dotenv_config "local.env" (env w) !! "ARK_BASE_URL")))
    with false.
  - unfold ret, logger, emit. cbn [env events oracle].
    rewrite <- app_assoc. reflexivity.
  - rewrite <- !negb_andb, Hguard. reflexivity.
Qed.

(** C7: with [e] the environment after [dotenv.config]: if one of
    ENDPOINT_ID, ENDPOINT_API_KEY, ARK_BASE_URL is missing from [e] (not set,
    or set to the empty string), [main] leaves the process with status 1
    after logging the error and nothing else: no graph is compiled, no node
    runs, nothing is yielded.  If the three are present, initialization
    returns the LLM built from them, logging no error. *)
Theorem missing_configuration_exits_before_graph (fuel : nat) w :
  let e := dotenv_config "local.env" (env w) in
  (config_missing e "ENDPOINT_ID" \/ config_missing e "ENDPOINT_API_KEY"
   \/ config_missing e "ARK_BASE_URL" ->
   exists w',
     main dotenv_config agent_invoke fuel w = (Exit 1, w')
     /\ events w'
        = events w ++ [Log LError "[initializeEnvironmentAndLLM] 缺少必要的环境变量 (ENDPOINT_ID, ENDPOINT_API_KEY, ARK_BASE_URL)。" NoPayload]
     /\ graph_activity (events w') = graph_activity (events w))
  /\ (config_present e "ENDPOINT_ID" -> config_present e "ENDPOINT_API_KEY" ->
      config_present e "ARK_BASE_URL" ->
      exists model apiKey baseURL w',
        e !! "ENDPOINT_ID" = Some model /\ e !! "ENDPOINT_API_KEY" = Some apiKey
        /\ e !! "ARK_BASE_URL" = Some baseURL
        /\ initializeEnvironmentAndLLM dotenv_config w
           = (Ok {| llm_apiKey := Some apiKey; llm_model := Some model;
                    llm_baseURL := Some baseURL; llm_temperature := 0 |}, w')
        /\ events w'
           = events w ++
               [LlmCreated {| llm_apiKey := Some apiKey; llm_model := Some model;
                              llm_baseURL := Some baseURL; llm_temperature := 0 |};
                Log LInfo "[initializeEnvironmentAndLLM] ChatOpenAI LLM Initialized." NoPayload]).
Proof.
  intros e. split.
  - intros Hmissing.
    assert (Hguard : Js.truthy (e !! "ENDPOINT_ID")
                     && Js.truthy (e !! "ENDPOINT_API_KEY")
                     && Js.truthy (e !! "ARK_BASE_URL") = false).
    { destruct Hmissing as [H|[H|H]]; apply truthy_false_iff in H; rewrite H;
        rewrite ?andb_false_r; reflexivity. }
    unfold main, try_catch, bind.
    rewrite (initializeEnvironmentAndLLM_exits w Hguard).
    eexists. split; [reflexivity|]. cbn [events]. split; [reflexivity|].
    rewrite graph_activity_app. cbn. apply app_nil_r.
  - intros (model & Hmodel & Hmodel') (apiKey & HapiKey & HapiKey')
      (baseURL & HbaseURL & HbaseURL').
    assert (Hguard : Js.truthy (e !! "ENDPOINT_ID")
                     && Js.truthy (e !! "ENDPOINT_API_KEY")
                     && Js.truthy (e !! "ARK_BASE_URL") = true).
    { rewrite !andb_true_iff. repeat split; apply truthy_true_iff; eauto. }
    pose proof (initializeEnvironmentAndLLM_proceeds w Hguard) as Hrun.
    cbv zeta in Hrun. fold e in Hrun. rewrite Hmodel, HapiKey, HbaseURL in Hrun.
    exists model, apiKey, baseURL. eexists.
    repeat split; [assumption..|exact Hrun|reflexivity].
Qed.

End Runs.

(** ** The properties on concrete runs *)

Import Scenario.


(** The whole program, started with the three variables set, against an
    agent that answers as a ReAct agent does. *)
Example main_runs_three_turns :
  let r := main no_dotenv echoes_then_hello 3 (world full_env) in
  fst r = Ok (Halted {| messages := messages initialInput ++ messages initialInput ++ [hello] |})
  /\ executed_nodes (events (snd r)) = ["supervisor"; "health_agent"; "supervisor"]
  /\ length (snapshots (events (snd r))) = 2%nat.
Proof. vm_compute. repeat split; reflexivity. Qed.

(** When the agent answers with no message at all the last message is still
    the user's, and the agent is delegated to again. *)
Example empty_response_delegates_again :
  executed_nodes
    (events (snd (runWorkflow 4
                    (compiled_workflow
                       (runnable_of (fun _ _ (o : unit) => (inr {| messages := [] |}, o)) llm))
                    start (world ∅))))
  = ["supervisor"; "health_agent"; "supervisor"; "health_agent"].
Proof. vm_compute. reflexivity. Qed.

(** The run from ["hi"] answered by ["hello"] executes three nodes and yields
    two snapshots; and when the agent first answers with no message, a
    snapshot is yielded that is no longer than the one before. *)
Lemma snapshots_fewer_than_nodes_and_not_strict :
  (exists w',
     runWorkflow 3 graph start (world ∅) = (Ok (Halted replied), w')
     /\ length (executed_nodes (events w')) = 3%nat
     /\ snapshots (events w') = [start; replied])
  /\ (exists w',
        runWorkflow 5 (compiled_workflow (runnable_of Cases.pauses_then_hello llm)) start
          {| env := ∅; events := []; oracle := 0%nat |}
        = (Ok (Halted replied), w')
        /\ snapshots (events w') = [start; start; replied]
        /\ ~ strictly_grows (snapshots (events w'))).
Proof.
  split.
  - eexists. split; [vm_compute; reflexivity|]. split; reflexivity.
  - eexists. split; [vm_compute; reflexivity|]. split; [reflexivity|].
    cbn. lia.
Qed.

Lemma stream_yields_input_then_one_snapshot_per_update_witness :
  exists (k : nat) (evs : list Event),
    events (snd (runWorkflow 3 graph start (world ∅))) = events (world ∅) ++ evs
    /\ graph_activity evs
       = Snapshot start :: NodeRun "supervisor"
         :: expected_rounds answers_hello llm k start (oracle (world ∅))
    /\ executed_nodes evs = "supervisor" :: delegations k
    /\ length (executed_nodes evs) = (2 * k + 1)%nat
    /\ length (snapshots evs) = (k + 1)%nat
    /\ grows (messages start) (snapshots evs)
    /\ last (snapshots evs) = Some replied.
Proof.
  apply (stream_yields_input_then_one_snapshot_per_update answers_hello llm 3 start
           (world ∅) replied (snd (runWorkflow 3 graph start (world ∅)))).
  vm_compute. reflexivity.
Defined.

Lemma empty_channel_run_ends_at_supervisor_witness :
  exists w',
    runWorkflow 1 graph {| messages := [] |} (world ∅)
    = (Ok (Halted {| messages := [] |}), w')
    /\ executed_nodes (events w') = ["supervisor"]
    /\ snapshots (events w') = [{| messages := [] |}].
Proof.
  destruct (empty_channel_run_ends_at_supervisor answers_hello llm 1 (world ∅))
    as (_ & _ & _ & w' & Hrun & Hnodes & Hsnaps & _); [lia|].
  exists w'. split; [exact Hrun|]. split; [exact Hnodes|exact Hsnaps].
Defined.

Lemma health_agent_step_appends_response_witness :
  (2 <= count_occ BaseMessage_eq_dec
          (messages start ++ messages {| messages := [hi; hello] |}) hi)%nat.
Proof.
  refine (proj2 (proj2 (health_agent_step_appends_response echoes_then_hello llm
                          start (world ∅) {| messages := [hi; hello] |} tt _)) _ hi _).
  - reflexivity.
  - intros x Hx. cbn in Hx |- *. tauto.
  - cbn. tauto.
Defined.

Lemma missing_configuration_exits_before_graph_witness :
  (exists w',
     main no_dotenv answers_hello 5 (world ∅) = (Exit 1, w')
     /\ graph_activity (events w') = [])
  /\ (exists w',
        initializeEnvironmentAndLLM no_dotenv (world full_env) = (Ok llm, w')).
Proof.
  split.
  - destruct (proj1 (missing_configuration_exits_before_graph no_dotenv answers_hello
                       5 (world ∅)))
      as (w' & Hmain & _ & Hquiet); [left; left; reflexivity|].
    exists w'. split; [exact Hmain|exact Hquiet].
  - destruct (proj2 (missing_configuration_exits_before_graph no_dotenv answers_hello
                       5 (world full_env)))
      as (model & apiKey & baseURL & w' & Hmodel & HapiKey & HbaseURL & Hinit & _).
    + exists "endpoint". split; [reflexivity|discriminate].
    + exists "key". split; [reflexivity|discriminate].
    + exists "https://ark.example/api". split; [reflexivity|discriminate].
    + exists w'. rewrite Hinit.
      vm_compute in Hmodel, HapiKey, HbaseURL.
      injection Hmodel as <-. injection HapiKey as <-. injection HbaseURL as <-.
      reflexivity.
Defined.

Lemma routeLogic_decides_on_last_class_witness :
  fst (routeLogic {| messages := [hello; hi] |} (world ∅)) = Ok "health_agent"
  /\ fst (routeLogic {| messages := [hi; hello] |} (world ∅)) = Ok END.
Proof.
  split.
  - apply (proj1 (routeLogic_decides_on_last_class {| messages := [hello; hi] |}
                    (world ∅))).
    exists hi. split; reflexivity.
  - apply (proj1 (proj2 (routeLogic_decides_on_last_class
                           {| messages := [hi; hello] |} (world ∅)))).
    intros (m & Hm & Hclass). cbn in Hm. injection Hm as <-. discriminate Hclass.
Defined.

(** * Further properties of the program *)

(** ** The chat handler loop *)

Lemma handle_chunk_selected (c : ChatHandler.Chunk) :
  List.filter ChatHandler.is_info (ChatHandler.handle_chunk c)
  = flat_map ChatHandler.report (ChatHandler.selected c).
Proof.
  assert (Hreport : forall ms,
             List.filter ChatHandler.is_info (flat_map ChatHandler.report ms)
             = flat_map ChatHandler.report ms).
  { induction ms as [|m ms IH]; [reflexivity|]. cbn. rewrite IH. reflexivity. }
  unfold ChatHandler.handle_chunk, ChatHandler.collect, ChatHandler.selected.
  destruct (ChatHandler.agent c) as [a|]; [|destruct (ChatHandler.tools c) as [t|]];
    cbn [fst snd app List.filter ChatHandler.is_info]; apply Hreport.
Qed.

(** X1: the loop logs, chunk by chunk and in the order of the stream, two
    info lines for every message of the chunk's [agent] update, or of its
    [tools] update when there is no [agent] update; the [tools] update of a
    chunk that has an [agent] update is not looked at, a chunk with neither
    logs nothing, and nothing is carried over from one chunk to the next. *)
Theorem chat_handler_reports_selected_messages (chunks : list ChatHandler.Chunk) :
  List.filter ChatHandler.is_info (ChatHandler.handle_stream chunks)
  = flat_map ChatHandler.report (flat_map ChatHandler.selected chunks)
  /\ length (List.filter ChatHandler.is_info (ChatHandler.handle_stream chunks))
     = (2 * length (flat_map ChatHandler.selected chunks))%nat
  /\ (forall a t t',
        ChatHandler.handle_chunk {| ChatHandler.agent := Some a; ChatHandler.tools := t |}
        = ChatHandler.handle_chunk {| ChatHandler.agent := Some a; ChatHandler.tools := t' |})
  /\ ChatHandler.handle_chunk {| ChatHandler.agent := None; ChatHandler.tools := None |} = []
  /\ (forall more,
        ChatHandler.handle_stream (chunks ++ more)
        = ChatHandler.handle_stream chunks ++ ChatHandler.handle_stream more).
Proof.
  assert (Hinfo : List.filter ChatHandler.is_info (ChatHandler.handle_stream chunks)
                  = flat_map ChatHandler.report (flat_map ChatHandler.selected chunks)).
  { unfold ChatHandler.handle_stream.
    induction chunks as [|c chunks IH]; [reflexivity|].
    cbn [flat_map]. rewrite List.filter_app, IH, handle_chunk_selected.
    symmetry. apply flat_map_app. }
  split; [exact Hinfo|]. split.
  - rewrite Hinfo. generalize (flat_map ChatHandler.selected chunks). intros ms.
    induction ms as [|m ms IH]; [reflexivity|]. cbn [flat_map ChatHandler.report app length].
    rewrite IH. lia.
  - split; [reflexivity|]. split; [reflexivity|].
    intros more. apply flat_map_app.
Qed.

(** ** The router, the nodes and the loop body of [runWorkflow] *)
Section MoreRuns.

Context {Oracle : Type}.
Variable dotenv_config : string -> gmap string string -> gmap string string.
Variable agent_invoke :
  ChatOpenAI -> AgentState -> Oracle -> (string + AgentState) * Oracle.

Implicit Types (w : World Oracle) (st : AgentState) (llm : ChatOpenAI).

Lemma last_merge (x y : list BaseMessage) :
  last (value messages_channel x y) = last (match y with [] => x | _ :: _ => y end).
Proof.
  rewrite reducer_is_append, last_app.
  destruct y as [|b y']; [reflexivity|].
  destruct (last (b :: y')) as [m|] eqn:Hlast; [reflexivity|].
  apply last_None in Hlast. discriminate.
Qed.

(** X2: the router and the reducer compose: after a delta that is not empty
    has been merged, the route is the one the delta alone gets, whatever the
    channel held before; after an empty delta it is the route of the channel
    as it was. *)
Theorem route_after_merge (x y : list BaseMessage) (w : World Oracle) :
  fst (routeLogic {| messages := value messages_channel x y |} w)
  = fst (routeLogic {| messages := match y with [] => x | _ :: _ => y end |} w).
Proof.
  rewrite !routeLogic_run. cbn [fst messages]. rewrite last_merge. reflexivity.
Qed.

(** X3: every label the router of the workflow's conditional edge can return
    is a key of the outcome mapping handed to [addConditionalEdges] with it,
    and is mapped to itself: the lookup of the router's label cannot miss. *)
Theorem router_labels_are_mapped (r : Runnable Oracle) (source : string)
    (router : AgentState -> M (World Oracle) string) (outcomes : gmap string string) :
  In (ConditionalEdge source router outcomes) (sg_edges (workflow_graph r)) ->
  source = "supervisor"
  /\ forall st w, exists label w',
       router st w = (Ok label, w')
       /\ (label = "health_agent" \/ label = END)
       /\ outcomes !! label = Some label.
Proof.
  change (sg_edges (workflow_graph r))
    with [ConditionalEdge "supervisor" (@routeLogic Oracle)
            (<[END := END]> (<["health_agent" := "health_agent"]> ∅));
          PlainEdge "health_agent" "supervisor"].
  intros [Hin|[Hin|[]]]; [|discriminate Hin].
  injection Hin as <- <- <-. split; [reflexivity|].
  intros st w. eexists _, _. split; [apply routeLogic_run|].
  split; [|apply workflow_outcomes_spec_route].
  destruct (msg_class <$> last (messages st)) as [[]|]; cbn; auto.
Qed.

(** X4: the router and the supervisor node only log.  They return normally
    in every world, leave the environment and the model service as they
    were, and append to the log two entries (debug, then info) and one debug
    entry respectively. *)
Theorem router_and_supervisor_only_log st w :
  (exists label text,
     routeLogic st w
     = (Ok label,
        {| env := env w;
           events := events w ++ [Log LDebug "[Supervisor] Deciding next step..." NoPayload;
                                  Log LInfo text NoPayload];
           oracle := oracle w |}))
  /\ (exists update text,
        supervisorNode st w
        = (Ok update,
           {| env := env w; events := events w ++ [Log LDebug text NoPayload];
              oracle := oracle w |})).
Proof.
  split.
  - rewrite routeLogic_run. unfold route_log, add_events.
    destruct (Js.instanceof_HumanMessage (last (messages st)));
      eexists _, _; reflexivity.
  - eexists _, _. reflexivity.
Qed.

(** X5: when the runnable rejects, [callHealthAgentNode] rejects with the
    same error: it returns no update and does not log a response; only its
    entry line has been logged. *)
Theorem callHealthAgentNode_propagates_rejection llm st w (detail : string) (o : Oracle) :
  agent_invoke llm st (oracle w) = (inl detail, o) ->
  callHealthAgentNode st (runnable_of agent_invoke llm) w
  = (Throw (TaskExecutionError detail),
     {| env := env w;
        events := events w ++ [Log LDebug "[HealthAgent] 调用健康助手节点..." NoPayload];
        oracle := o |}).
Proof.
  intros Hinvoke. unfold callHealthAgentNode, bind. rewrite logger_run. cbv beta iota.
  unfold runnable_of. cbn [oracle add_events env events]. rewrite Hinvoke. reflexivity.
Qed.

(** X6: [callHealthAgentNode] consults the runnable exactly once and hands
    it the state it was given, unchanged: whatever the answer, the model
    service is afterwards in the state that one [invoke] on that state
    leaves it in, and the environment is untouched.  When the runnable
    answers, the update holds the response's message list as it is, also
    when that list is empty. *)
Theorem callHealthAgentNode_invokes_once llm st w :
  oracle (snd (callHealthAgentNode st (runnable_of agent_invoke llm) w))
  = snd (agent_invoke llm st (oracle w))
  /\ env (snd (callHealthAgentNode st (runnable_of agent_invoke llm) w)) = env w
  /\ (forall response,
        fst (agent_invoke llm st (oracle w)) = inr response ->
        fst (callHealthAgentNode st (runnable_of agent_invoke llm) w)
        = Ok {| upd_messages := Some (messages response) |}).
Proof.
  unfold callHealthAgentNode, bind. rewrite logger_run. cbv beta iota.
  unfold runnable_of. cbn [oracle add_events env events].
  destruct (agent_invoke llm st (oracle w)) as [[detail|response] o]; cbn.
  - repeat split. intros response [=].
  - repeat split. intros response' [= <-]. reflexivity.
Qed.

(** X7: the loop body of [runWorkflow] looks at the last message of a
    snapshot only: for a snapshot with no message it logs nothing and
    returns; otherwise what it does is what it does on the last message
    alone, one info line for the message and a second one exactly when the
    message carries response metadata. *)
Theorem runWorkflow_body_reads_last_message (earlier : list BaseMessage)
    (m : BaseMessage) w :
  runWorkflow_body {| messages := [] |} w = (Ok tt, w)
  /\ runWorkflow_body {| messages := earlier ++ [m] |} w
     = runWorkflow_body {| messages := [m] |} w
  /\ exists line,
       runWorkflow_body {| messages := [m] |} w
       = (Ok tt,
          add_events w
            (Log LInfo line (PMessage m)
             :: match response_metadata m with
                | Some meta => [Log LInfo "[runWorkflow] response_metadata:" (PMetadata meta)]
                | None => []
                end)).
Proof.
  split; [reflexivity|]. split.
  - rewrite !runWorkflow_body_run. unfold body_log. cbn [messages].
    rewrite last_snoc. reflexivity.
  - eexists. rewrite runWorkflow_body_run. reflexivity.
Qed.

(** X8: initialization reads three variables and no other: two worlds
    whose environments, once [dotenv.config] has run, agree on ENDPOINT_ID,
    ENDPOINT_API_KEY and ARK_BASE_URL get the same outcome, the same exit or
    the same LLM, and initialization never throws. *)
Theorem initialization_reads_three_variables (w1 w2 : World Oracle) :
  (forall name,
     In name ["ENDPOINT_ID"; "ENDPOINT_API_KEY"; "ARK_BASE_URL"] ->
     dotenv_config "local.env" (env w1) !! name
     = dotenv_config "local.env" (env w2) !! name) ->
  fst (initializeEnvironmentAndLLM dotenv_config w1)
  = fst (initializeEnvironmentAndLLM dotenv_config w2)
  /\ (fst (initializeEnvironmentAndLLM dotenv_config w1) = Exit 1
      \/ fst (initializeEnvironmentAndLLM dotenv_config w1)
         = Ok (llm_of_env (dotenv_config "local.env" (env w1)))).
Proof.
  intros Hagree.
  assert (Hout : forall w,
             fst (initializeEnvironmentAndLLM dotenv_config w)
             = if Js.truthy (dotenv_config "local.env" (env w) !! "ENDPOINT_ID")
                  && Js.truthy (dotenv_config "local.env" (env w) !! "ENDPOINT_API_KEY")
                  && Js.truthy (dotenv_config "local.env" (env w) !! "ARK_BASE_URL")
               then Ok (llm_of_env (dotenv_config "local.env" (env w)))
               else Exit 1).
  { intros w.
    destruct (Js.truthy (dotenv_config "local.env" (env w) !! "ENDPOINT_ID")
              && Js.truthy (dotenv_config "local.env" (env w) !! "ENDPOINT_API_KEY")
              && Js.truthy (dotenv_config "local.env" (env w) !! "ARK_BASE_URL"))
      eqn:Hguard.
    - rewrite (initializeEnvironmentAndLLM_proceeds dotenv_config w Hguard). reflexivity.
    - rewrite (initializeEnvironmentAndLLM_exits dotenv_config w Hguard). reflexivity. }
  split.
  - rewrite !Hout. unfold llm_of_env.
    rewrite !(Hagree "ENDPOINT_ID"), !(Hagree "ENDPOINT_API_KEY"),
      !(Hagree "ARK_BASE_URL") by (cbn; tauto).
    reflexivity.
  - rewrite Hout.
    destruct (Js.truthy _ && Js.truthy _ && Js.truthy _); auto.
Qed.

(** ** Runs of the workflow *)

(** The shape of a run that reaches END. *)
Lemma exec_loop_shape llm (fuel : nat) :
  forall (current : string) st w (final : AgentState) w',
    exec_loop fuel (compiled_workflow (runnable_of agent_invoke llm)) runWorkflow_body
      current st w = (Ok (Halted final), w') ->
    spec_route (msg_class <$> last (messages final)) = END
    /\ exists k : nat,
         executed_nodes (events w')
         = executed_nodes (events w)
           ++ (if String.eqb current "supervisor"
               then "supervisor" :: delegations k
               else delegations (S k)).
Proof.
  induction fuel as [|fuel IH]; intros current st w final w' Hrun; [discriminate|].
  rewrite exec_loop_unfold in Hrun.
  destruct (exec_step _ _ current st w) as [out w1] eqn:Hstep.
  apply exec_step_inv in Hstep
    as [(-> & -> & evs & -> & Hnodes & _)
       |[(-> & response & o & _ & -> & evs & -> & Hnodes & _)
        |[(_ & detail & o & _ & -> & _)|(_ & _ & -> & _)]]];
    try discriminate.
  - cbn [fst snd] in Hrun.
    destruct (spec_route_cases (msg_class <$> last (messages st)))
      as [[Hroute _]|[Hroute _]]; rewrite Hroute in Hrun.
    + change (String.eqb "health_agent" END) with false in Hrun. cbv iota in Hrun.
      apply IH in Hrun as (Hfinal & k & Htrace). split; [exact Hfinal|].
      exists (S k). rewrite Htrace.
      change (String.eqb "health_agent" "supervisor") with false.
      change (String.eqb "supervisor" "supervisor") with true. cbv iota.
      cbn [events add_events]. rewrite executed_nodes_app, Hnodes, <- app_assoc.
      reflexivity.
    + change (String.eqb END END) with true in Hrun. cbv iota in Hrun.
      injection Hrun as <- <-. split; [exact Hroute|].
      exists 0%nat. cbn [events add_events].
      rewrite executed_nodes_app, Hnodes. reflexivity.
  - cbn [fst snd] in Hrun.
    change (String.eqb "supervisor" END) with false in Hrun. cbv iota in Hrun.
    apply IH in Hrun as (Hfinal & k & Htrace). split; [exact Hfinal|].
    exists k. rewrite Htrace, executed_nodes_step, Hnodes, <- app_assoc.
    reflexivity.
Qed.

Lemma executed_nodes_input st : executed_nodes (Snapshot st :: body_log st) = [].
Proof. apply (proj1 (body_log_quiet st)). Qed.

Lemma snapshots_input st : snapshots (Snapshot st :: body_log st) = [st].
Proof.
  change (Snapshot st :: body_log st) with ([Snapshot st] ++ body_log st).
  rewrite snapshots_app, (proj2 (body_log_quiet st)). reflexivity.
Qed.

(** X9: on the execution loop as modelled, the nodes of a run that reaches
    END alternate: the supervisor first, then any number of rounds of
    health_agent followed by the supervisor.  The supervisor runs once more
    than the agent, and it is the supervisor that ends the run. *)
Theorem halted_run_alternates llm (fuel : nat) st w (final : AgentState) w' :
  runWorkflow fuel (compiled_workflow (runnable_of agent_invoke llm)) st w
  = (Ok (Halted final), w') ->
  exists k : nat,
    executed_nodes (events w')
    = executed_nodes (events w) ++ "supervisor" :: delegations k.
Proof.
  rewrite runWorkflow_run, workflow_entry. intros Hrun.
  apply exec_loop_shape in Hrun as (_ & k & Htrace). exists k.
  rewrite Htrace. cbn [events add_events].
  rewrite executed_nodes_app, executed_nodes_input, app_nil_r. reflexivity.
Qed.

(** X10: on the execution loop as modelled, a run that reaches END never
    leaves a HumanMessage as the last message of the final state. *)
Theorem halted_run_does_not_end_on_user_message llm (fuel : nat) st w
    (final : AgentState) w' :
  runWorkflow fuel (compiled_workflow (runnable_of agent_invoke llm)) st w
  = (Ok (Halted final), w') ->
  ~ exists m, last (messages final) = Some m /\ msg_class m = HumanMessage.
Proof.
  rewrite runWorkflow_run, workflow_entry. intros Hrun.
  apply exec_loop_shape in Hrun as (Hroute & _).
  intros (m & Hlast & Hclass). rewrite Hlast in Hroute. cbn in Hroute.
  rewrite Hclass in Hroute. discriminate.
Qed.

(** X11: on the execution loop as modelled, a run from a state whose last
    message is not a HumanMessage (or that has no message) ends after the
    supervisor's turn: one snapshot, the state as it was, and the agent is
    not consulted. *)
Theorem run_without_user_message_ends_at_supervisor llm (fuel : nat) st w :
  (forall m, last (messages st) = Some m -> msg_class m <> HumanMessage) ->
  exists w',
    runWorkflow (S fuel) (compiled_workflow (runnable_of agent_invoke llm)) st w
    = (Ok (Halted st), w')
    /\ executed_nodes (events w') = executed_nodes (events w) ++ ["supervisor"]
    /\ snapshots (events w') = snapshots (events w) ++ [st]
    /\ oracle w' = oracle w.
Proof.
  intros Hlast.
  assert (Hroute : spec_route (msg_class <$> last (messages st)) = END).
  { destruct (last (messages st)) as [m|] eqn:Hm; [|reflexivity].
    cbn. specialize (Hlast m eq_refl). destruct (msg_class m); try reflexivity.
    contradiction. }
  rewrite runWorkflow_run, workflow_entry.
  rewrite (run_halts_at_supervisor _ fuel st _ Hroute).
  eexists. split; [reflexivity|].
  cbn [events add_events oracle].
  rewrite !executed_nodes_app, !snapshots_app.
  rewrite executed_nodes_input, snapshots_input.
  rewrite (proj1 (route_log_quiet st)), (proj2 (route_log_quiet st)).
  cbn [executed_nodes snapshots omap list_omap app]. rewrite !app_nil_r.
  repeat split; reflexivity.
Qed.

Lemma exec_loop_keeps_running llm (fuel : nat) :
  (forall s o, exists response o',
     agent_invoke llm s o = (inr response, o')
     /\ forall r, last (messages response) = Some r -> msg_class r = HumanMessage) ->
  forall (current : string) st w (m : BaseMessage),
    current = "supervisor" \/ current = "health_agent" ->
    last (messages st) = Some m -> msg_class m = HumanMessage ->
    exists current' st' w',
      exec_loop fuel (compiled_workflow (runnable_of agent_invoke llm)) runWorkflow_body
        current st w = (Ok (StillRunning current' st'), w').
Proof.
  intros Hagent.
  induction fuel as [|fuel IH]; intros current st w m Hcurrent Hlast Hclass.
  - eexists _, _, _. reflexivity.
  - rewrite exec_loop_unfold. destruct Hcurrent as [->| ->].
    + rewrite exec_step_supervisor. cbn [fst snd].
      rewrite (last_human_routes st m Hlast Hclass).
      change (String.eqb "health_agent" END) with false. cbv iota.
      apply (IH "health_agent" st _ m); auto.
    + destruct (Hagent st (oracle w)) as (response & o & Hinvoke & Hreply).
      rewrite (exec_step_health_agent agent_invoke llm st w response o Hinvoke).
      cbn [fst snd]. change (String.eqb "supervisor" END) with false. cbv iota.
      destruct (last (messages response)) as [r|] eqn:Hr.
      * apply (IH "supervisor" _ _ r); auto.
        cbn [messages]. rewrite last_app, Hr. reflexivity.
      * apply (IH "supervisor" _ _ m); auto.
        cbn [messages]. rewrite last_app, Hr. exact Hlast.
Qed.

(** X12: on the execution loop as modelled, if every response of the agent
    is empty or ends in a HumanMessage, a run from a state whose last message
    is a HumanMessage never reaches END: however many turns it is given, it
    is still running. *)
Theorem run_never_halts_on_user_like_replies llm (fuel : nat) st w (m : BaseMessage) :
  (forall s o, exists response o',
     agent_invoke llm s o = (inr response, o')
     /\ forall r, last (messages response) = Some r -> msg_class r = HumanMessage) ->
  last (messages st) = Some m -> msg_class m = HumanMessage ->
  exists current st' w',
    runWorkflow fuel (compiled_workflow (runnable_of agent_invoke llm)) st w
    = (Ok (StillRunning current st'), w').
Proof.
  intros Hagent Hlast Hclass. rewrite runWorkflow_run, workflow_entry.
  apply (exec_loop_keeps_running llm fuel Hagent "supervisor" st _ m); auto.
Qed.

Lemma exec_loop_no_exit llm (fuel : nat) :
  forall (current : string) st w (code : Z) w',
    exec_loop fuel (compiled_workflow (runnable_of agent_invoke llm)) runWorkflow_body
      current st w <> (Exit code, w').
Proof.
  induction fuel as [|fuel IH]; intros current st w code w'; [discriminate|].
  rewrite exec_loop_unfold.
  destruct (exec_step _ _ current st w) as [out w1] eqn:Hstep.
  apply exec_step_inv in Hstep
    as [(_ & -> & _)
       |[(_ & response & o & _ & -> & _)
        |[(_ & detail & o & _ & -> & _)|(_ & _ & -> & _)]]];
    try discriminate.
  - cbn [fst snd]. destruct (String.eqb _ END); [discriminate|apply IH].
  - cbn [fst snd]. destruct (String.eqb _ END); [discriminate|apply IH].
Qed.

Lemma exec_loop_keeps_env llm (fuel : nat) :
  forall (current : string) st w (out : Outcome RunStatus) w',
    exec_loop fuel (compiled_workflow (runnable_of agent_invoke llm)) runWorkflow_body
      current st w = (out, w') ->
    env w' = env w.
Proof.
  induction fuel as [|fuel IH]; intros current st w out w' Hrun.
  - injection Hrun as _ <-. reflexivity.
  - rewrite exec_loop_unfold in Hrun.
    destruct (exec_step _ _ current st w) as [out1 w1] eqn:Hstep.
    apply exec_step_inv in Hstep
      as [(_ & -> & evs & -> & _)
         |[(_ & response & o & _ & -> & evs & -> & _)
          |[(_ & detail & o & _ & -> & evs & -> & _)|(_ & _ & -> & ->)]]].
    + cbn [fst snd] in Hrun. destruct (String.eqb _ END).
      * injection Hrun as _ <-. reflexivity.
      * apply IH in Hrun. exact Hrun.
    + cbn [fst snd] in Hrun. destruct (String.eqb _ END).
      * injection Hrun as _ <-. reflexivity.
      * apply IH in Hrun. exact Hrun.
    + injection Hrun as _ <-. reflexivity.
    + injection Hrun as _ <-. reflexivity.
Qed.

(** [main] once the three variables are there: the start-up events, then the
    run inside the [try]. *)
Lemma main_after_startup (fuel : nat) w :
  Js.truthy (dotenv_config "local.env" (env w) !! "ENDPOINT_ID")
  && Js.truthy (dotenv_config "local.env" (env w) !! "ENDPOINT_API_KEY")
  && Js.truthy (dotenv_config "local.env" (env w) !! "ARK_BASE_URL") = true ->
  let e := dotenv_config "local.env" (env w) in
  main dotenv_config agent_invoke fuel w
  = try_catch
      (runWorkflow fuel (compiled_workflow (runnable_of agent_invoke (llm_of_env e)))
         initialInput)
      (fun error =>
         logger LError "主函数发生未处理错误:" (PError (detail_of error)) >>
         process_exit 1)
      {| env := e; events := events w ++ startup_events (llm_of_env e);
         oracle := oracle w |}.
Proof.
  intros Hguard e. unfold main, try_catch at 1, bind at 1.
  rewrite (initializeEnvironmentAndLLM_proceeds dotenv_config w Hguard).
  cbv beta iota zeta. fold e. fold (llm_of_env e).
  unfold createHealthAgentRunnable, bind. rewrite !logger_run. cbv beta iota.
  rewrite emit_run. cbv beta iota. rewrite logger_run. cbv beta iota.
  unfold ret at 1. cbv beta iota.
  rewrite buildWorkflow_run. cbv beta iota.
  unfold try_catch. rewrite !add_events_app. unfold add_events.
  cbn [env events oracle app]. rewrite <- !app_assoc. reflexivity.
Qed.

(** X13: [main] never ends in an uncaught error and never leaves the process
    with a status other than 1: it either returns from the run or exits
    with status 1. *)
Theorem main_returns_or_exits_with_1 (fuel : nat) w :
  (exists status, fst (main dotenv_config agent_invoke fuel w) = Ok status)
  \/ fst (main dotenv_config agent_invoke fuel w) = Exit 1.
Proof.
  destruct (Js.truthy (dotenv_config "local.env" (env w) !! "ENDPOINT_ID")
            && Js.truthy (dotenv_config "local.env" (env w) !! "ENDPOINT_API_KEY")
            && Js.truthy (dotenv_config "local.env" (env w) !! "ARK_BASE_URL"))
    eqn:Hguard.
  - rewrite (main_after_startup fuel w Hguard). cbv zeta. unfold try_catch.
    rewrite runWorkflow_run, workflow_entry.
    destruct (exec_loop _ _ _ _ _ _) as [[status|error|code] w1] eqn:Hrun.
    + left. exists status. reflexivity.
    + right. reflexivity.
    + exfalso. exact (exec_loop_no_exit _ _ _ _ _ _ _ Hrun).
  - right. unfold main, try_catch, bind.
    rewrite (initializeEnvironmentAndLLM_exits dotenv_config w Hguard). reflexivity.
Qed.

(** X14: when the three variables are present and the agent rejects the
    first call, [main] catches the error, logs it with its detail as the last
    line and leaves the process with status 1.  On the execution loop as
    modelled the initial state has been yielded by then, the supervisor has
    run, the agent's node has been started, and nothing has been yielded for
    it. *)
Theorem agent_rejection_exits_with_1 (fuel : nat) w (detail : string) (o : Oracle) :
  let e := dotenv_config "local.env" (env w) in
  config_present e "ENDPOINT_ID" -> config_present e "ENDPOINT_API_KEY" ->
  config_present e "ARK_BASE_URL" ->
  agent_invoke (llm_of_env e) initialInput (oracle w) = (inl detail, o) ->
  (2 <= fuel)%nat ->
  exists w',
    main dotenv_config agent_invoke fuel w = (Exit 1, w')
    /\ last (events w') = Some (Log LError "主函数发生未处理错误:" (PError detail))
    /\ executed_nodes (events w')
       = executed_nodes (events w) ++ ["supervisor"; "health_agent"]
    /\ snapshots (events w') = snapshots (events w) ++ [initialInput]
    /\ oracle w' = o.
Proof.
  intros e Hid Hkey Hurl Hinvoke Hfuel.
  assert (Hguard : Js.truthy (e !! "ENDPOINT_ID")
                   && Js.truthy (e !! "ENDPOINT_API_KEY")
                   && Js.truthy (e !! "ARK_BASE_URL") = true).
  { rewrite !andb_true_iff. repeat split; apply truthy_true_iff; assumption. }
  rewrite (main_after_startup fuel w Hguard). cbv zeta. fold e.
  destruct fuel as [|[|fuel]]; [lia|lia|].
  unfold try_catch. rewrite runWorkflow_run, workflow_entry.
  rewrite exec_loop_unfold, exec_step_supervisor. cbn [fst snd].
  change (spec_route (msg_class <$> last (messages initialInput))) with "health_agent".
  change (String.eqb "health_agent" END) with false. cbv iota.
  rewrite exec_loop_unfold.
  rewrite (exec_step_health_agent_rejects agent_invoke (llm_of_env e) initialInput _
             detail o) by exact Hinvoke.
  unfold bind. rewrite logger_run. cbv beta iota.
  eexists. split; [reflexivity|].
  cbn [events add_events with_oracle oracle env detail_of].
  split; [apply last_snoc|].
  rewrite !executed_nodes_app, !snapshots_app.
  rewrite executed_nodes_input, snapshots_input.
  rewrite (proj1 (route_log_quiet _)), (proj2 (route_log_quiet _)).
  cbn [executed_nodes snapshots omap list_omap app startup_events].
  rewrite !app_nil_r, <- !app_assoc. repeat split; reflexivity.
Qed.

(** X15: [buildWorkflow] succeeds for every runnable on [compile] as
    modelled: the graph it assembles has the supervisor as its registered
    entry node, registers the supervisor and the health agent and no other
    node, and every edge leaves a distinct registered node for a registered
    node or END. *)
Theorem buildWorkflow_always_compiles (r : Runnable Oracle) w :
  (exists app w',
     buildWorkflow r w = (Ok app, w')
     /\ cg_entry app = "supervisor"
     /\ (forall name, is_Some (cg_nodes app !! name)
                      <-> name = "supervisor" \/ name = "health_agent")
     /\ graph_activity (events w') = graph_activity (events w) ++ [GraphCompiled]
     /\ oracle w' = oracle w)
  /\ forallb (edge_ok (workflow_graph r)) (sg_edges (workflow_graph r)) = true
  /\ NoDup (edge_source <$> sg_edges (workflow_graph r)).
Proof.
  split; [|split].
  - exists (compiled_workflow r). eexists. split; [apply buildWorkflow_run|].
    split; [reflexivity|]. split; [|split].
    + intros name. split.
      * intros [task Htask]. apply workflow_nodes_inv in Htask as [[-> _]|[-> _]]; auto.
      * intros [-> | ->]; eexists; reflexivity.
    + cbn [events add_events]. rewrite graph_activity_app. reflexivity.
    + reflexivity.
  - vm_compute. reflexivity.
  - apply (bool_decide_unpack _). vm_compute. reflexivity.
Qed.

(** X16: the whole program.  When the three variables are present and the
    agent, built over the LLM that carries exactly those three values and
    asked about the one greeting of the user, answers with a list whose last
    message is not a HumanMessage, [main] returns normally: on the execution
    loop as modelled the run ends with the greeting followed by the response,
    after the agent was consulted once. *)
Theorem main_completes_after_one_delegation (fuel : nat) w (response : AgentState)
    (o : Oracle) (reply : BaseMessage) :
  let e := dotenv_config "local.env" (env w) in
  config_present e "ENDPOINT_ID" -> config_present e "ENDPOINT_API_KEY" ->
  config_present e "ARK_BASE_URL" ->
  agent_invoke (llm_of_env e) initialInput (oracle w) = (inr response, o) ->
  last (messages response) = Some reply -> msg_class reply <> HumanMessage ->
  (3 <= fuel)%nat ->
  exists w',
    main dotenv_config agent_invoke fuel w
    = (Ok (Halted {| messages := messages initialInput ++ messages response |}), w')
    /\ executed_nodes (events w')
       = executed_nodes (events w) ++ ["supervisor"; "health_agent"; "supervisor"]
    /\ env w' = e /\ oracle w' = o.
Proof.
  intros e Hid Hkey Hurl Hinvoke Hreply Hclass Hfuel.
  assert (Hguard : Js.truthy (e !! "ENDPOINT_ID")
                   && Js.truthy (e !! "ENDPOINT_API_KEY")
                   && Js.truthy (e !! "ARK_BASE_URL") = true).
  { rewrite !andb_true_iff. repeat split; apply truthy_true_iff; assumption. }
  rewrite (main_after_startup fuel w Hguard). cbv zeta. fold e.
  replace fuel with (3 + (fuel - 3))%nat by lia.
  destruct (run_three_turns agent_invoke (llm_of_env e) (fuel - 3) initialInput
              {| env := e; events := events w ++ startup_events (llm_of_env e);
                 oracle := oracle w |}
              response o (new_HumanMessage "你好啊") reply)
    as (w' & Hrun & Hnodes & _ & Horacle); try assumption; try reflexivity.
  assert (Henv : env w' = e).
  { rewrite runWorkflow_run, workflow_entry in Hrun.
    apply exec_loop_keeps_env in Hrun. exact Hrun. }
  exists w'. unfold try_catch. rewrite Hrun.
  split; [reflexivity|]. split; [|split; assumption].
  rewrite Hnodes. cbn [events]. rewrite executed_nodes_app.
  cbn [startup_events executed_nodes omap list_omap]. rewrite app_nil_r. reflexivity.
Qed.

End MoreRuns.

(** ** The further properties on concrete runs *)

Lemma router_labels_are_mapped_witness :
  exists label w',
    routeLogic start (world ∅) = (Ok label, w')
    /\ (label = "health_agent" \/ label = END)
    /\ (<[END := END]> (<["health_agent" := "health_agent"]> (∅ : gmap string string)))
         !! label = Some label.
Proof.
  refine (proj2 (router_labels_are_mapped (runnable_of answers_hello llm) "supervisor"
                   routeLogic
                   (<[END := END]> (<["health_agent" := "health_agent"]> ∅)) _)
            start (world ∅)).
  left. reflexivity.
Defined.

Lemma initialization_reads_three_variables_witness :
  fst (initializeEnvironmentAndLLM no_dotenv (world full_env))
  = fst (initializeEnvironmentAndLLM no_dotenv
           (world (<["MY_VARIABLE" := "x"]> full_env))).
Proof.
  refine (proj1 (initialization_reads_three_variables no_dotenv (world full_env)
                   (world (<["MY_VARIABLE" := "x"]> full_env)) _)).
  intros name [<-|[<-|[<-|[]]]]; vm_compute; reflexivity.
Defined.

Lemma halted_run_alternates_witness :
  exists k : nat,
    executed_nodes (events (snd (runWorkflow 3 graph start (world ∅))))
    = executed_nodes (events (world ∅)) ++ "supervisor" :: delegations k.
Proof.
  apply (halted_run_alternates answers_hello llm 3 start (world ∅) replied
           (snd (runWorkflow 3 graph start (world ∅)))).
  vm_compute. reflexivity.
Defined.

Lemma halted_run_does_not_end_on_user_message_witness :
  ~ exists m, last (messages replied) = Some m /\ msg_class m = HumanMessage.
Proof.
  apply (halted_run_does_not_end_on_user_message answers_hello llm 3 start (world ∅)
           replied (snd (runWorkflow 3 graph start (world ∅)))).
  vm_compute. reflexivity.
Defined.

Lemma run_without_user_message_ends_at_supervisor_witness :
  exists w',
    runWorkflow 1 graph {| messages := [hi; hello] |} (world ∅)
    = (Ok (Halted {| messages := [hi; hello] |}), w')
    /\ executed_nodes (events w') = executed_nodes (events (world ∅)) ++ ["supervisor"]
    /\ snapshots (events w')
       = snapshots (events (world ∅)) ++ [{| messages := [hi; hello] |}]
    /\ oracle w' = oracle (world ∅).
Proof.
  apply (run_without_user_message_ends_at_supervisor answers_hello llm 0
           {| messages := [hi; hello] |} (world ∅)).
  intros m Hm. cbn in Hm. injection Hm as <-. discriminate.
Defined.

Lemma run_never_halts_on_user_like_replies_witness :
  exists current st' w',
    runWorkflow 7 (compiled_workflow (runnable_of Cases.silent llm)) start (world ∅)
    = (Ok (StillRunning current st'), w').
Proof.
  apply (run_never_halts_on_user_like_replies Cases.silent llm 7 start (world ∅) hi).
  - intros s o. exists {| messages := [] |}, o. split; [reflexivity|].
    intros r Hr. discriminate Hr.
  - reflexivity.
  - reflexivity.
Defined.

Lemma agent_rejection_exits_with_1_witness :
  exists w',
    main no_dotenv Cases.rejects 2 (world full_env) = (Exit 1, w')
    /\ last (events w') = Some (Log LError "主函数发生未处理错误:" (PError "503"))
    /\ executed_nodes (events w')
       = executed_nodes (events (world full_env)) ++ ["supervisor"; "health_agent"]
    /\ snapshots (events w') = snapshots (events (world full_env)) ++ [initialInput]
    /\ oracle w' = tt.
Proof.
  apply (agent_rejection_exits_with_1 no_dotenv Cases.rejects 2 (world full_env) "503" tt).
  - exists "endpoint". split; [reflexivity|discriminate].
  - exists "key". split; [reflexivity|discriminate].
  - exists "https://ark.example/api". split; [reflexivity|discriminate].
  - reflexivity.
  - lia.
Defined.

Lemma callHealthAgentNode_propagates_rejection_witness :
  callHealthAgentNode start (runnable_of Cases.rejects llm) (world ∅)
  = (Throw (TaskExecutionError "503"),
     {| env := ∅;
        events := [Log LDebug "[HealthAgent] 调用健康助手节点..." NoPayload];
        oracle := tt |}).
Proof.
  apply (callHealthAgentNode_propagates_rejection Cases.rejects llm start (world ∅)
           "503" tt).
  reflexivity.
Defined.

(** The agent that counts its calls has been called once after the node ran. *)
Example callHealthAgentNode_counts_one_call :
  oracle (snd (callHealthAgentNode start (runnable_of Cases.counting llm)
                 {| env := ∅; events := []; oracle := 0%nat |})) = 1%nat.
Proof. reflexivity. Qed.

(** A chunk with both updates: the tool result is not logged. *)
Example chat_handler_on_both_updates :
  ChatHandler.handle_chunk
    {| ChatHandler.agent := Some {| ChatHandler.u_messages := [Cases.answer] |};
       ChatHandler.tools := Some {| ChatHandler.u_messages := [Cases.tool_result] |} |}
  = [ChatHandler.DebugLine "[chatHandler] Receive 1 AI Messages";
     ChatHandler.InfoLine "id: run-1, content: hello";
     ChatHandler.InfoMetadata "response_metadata: " (Some "{}")].
Proof. vm_compute. reflexivity. Qed.

Lemma main_completes_after_one_delegation_witness :
  exists w',
    main no_dotenv echoes_then_hello 3 (world full_env)
    = (Ok (Halted {| messages := messages initialInput
                                 ++ messages {| messages := messages initialInput ++ [hello] |} |}),
       w')
    /\ executed_nodes (events w')
       = executed_nodes (events (world full_env))
         ++ ["supervisor"; "health_agent"; "supervisor"]
    /\ env w' = no_dotenv "local.env" full_env /\ oracle w' = tt.
Proof.
  apply (main_completes_after_one_delegation no_dotenv echoes_then_hello 3
           (world full_env) {| messages := messages initialInput ++ [hello] |} tt hello).
  - exists "endpoint". split; [reflexivity|discriminate].
  - exists "key". split; [reflexivity|discriminate].
  - exists "https://ark.example/api". split; [reflexivity|discriminate].
  - reflexivity.
  - reflexivity.
  - discriminate.
  - lia.
Defined.
